(** * ooodev event arguments, event registry and cancel error

    A shallow embedding of the event subsystem of [ooodev]:
    - [src/ooodev/events/args/event_args.py]  (class [EventArgs]),
    - [src/ooodev/exceptions/ex.py]           (class [CancelEventError]),
    - the [Events] registry and [CancelEventArgs] that the tests in
      [src/tests/test_events/test_cancel_event_args.py] import.

    Python objects live in a heap of attribute dictionaries, so that the
    args object handed to every subscriber and inspected by the caller
    afterwards is one shared, mutable object.  Python code is a function
    from heaps to a result (a value or a raised exception) and a heap. *)

From Stdlib Require Import ZArith NArith Ascii String List Decimal DecimalString.
From stdpp Require Import base option list strings countable gmap.
From Equations Require Import Equations.

Set Default Proof Using "Type".
Local Open Scope string_scope.
Local Open Scope list_scope.

(** ** Python values, objects and the interpreter monad *)

Module Py.

(** Object identity. *)
Definition loc := positive.

(** A Python [str]: a sequence of Unicode code points. *)
Abbreviation pystr := (list N).

(** A string literal of the source, code point by code point. *)
Definition lit (s : string) : pystr :=
  map N_of_ascii (list_ascii_of_string s).

Inductive value : Type :=
| VNone
| VBool (b : bool)
| VInt (z : Z)
| VStr (s : pystr)
| VRef (l : loc).

(** A raised exception: its class and its [args] tuple. *)
Record exn : Type := Exn { exn_cls : string; exn_args : list value }.

(** An instance: its class name and its [__dict__]. *)
Record obj : Type := Obj { obj_cls : string; obj_dict : gmap string value }.

Abbreviation heap := (gmap loc obj).

Inductive result (A : Type) : Type :=
| Ok (a : A)
| Raise (e : exn).
Arguments Ok {A} a.
Arguments Raise {A} e.

(** A computation runs on the heap; an exception keeps the heap as the
    code left it. *)
Definition M (A : Type) : Type := heap -> result A * heap.

Definition ret {A} (a : A) : M A := fun σ => (Ok a, σ).

Definition raise {A} (e : exn) : M A := fun σ => (Raise e, σ).

Definition bind {A B} (m : M A) (k : A -> M B) : M B :=
  fun σ => match m σ with
           | (Ok a, σ') => k a σ'
           | (Raise e, σ') => (Raise e, σ')
           end.

(** [try: m except: h] where [h] decides itself which classes it
    handles and re-raises the others. *)
Definition try_except {A} (m : M A) (h : exn -> M A) : M A :=
  fun σ => match m σ with
           | (Ok a, σ') => (Ok a, σ')
           | (Raise e, σ') => h e σ'
           end.

Definition AttributeError (name : string) : exn :=
  Exn "AttributeError" [VStr (lit name)].

Definition isinstance (e : exn) (cls : string) : bool :=
  String.eqb (exn_cls e) cls.

(** The entry [name] of the instance dictionary of [o]; a value that
    is not an instance has none. *)
Definition lookup_attr (σ : heap) (o : value) (name : string)
  : option value :=
  match o with
  | VRef l =>
      match σ !! l with
      | Some ob => obj_dict ob !! name
      | None => None
      end
  | _ => None
  end.

(** [o.name] for a name that only the instance dictionary can hold. *)
Definition getattr (o : value) (name : string) : M value :=
  fun σ => match lookup_attr σ o name with
           | Some v => (Ok v, σ)
           | None => (Raise (AttributeError name), σ)
           end.

(** [o.name = v]. *)
Definition setattr (o : value) (name : string) (v : value) : M unit :=
  fun σ => match o with
           | VRef l =>
               match σ !! l with
               | Some ob =>
                   (Ok tt, <[l := Obj (obj_cls ob) (<[name := v]> (obj_dict ob))]> σ)
               | None => (Raise (AttributeError name), σ)
               end
           | _ => (Raise (AttributeError name), σ)
           end.

(** [object.__new__(cls)]: a new identity with an empty dictionary. *)
Definition alloc (cls : string) : M value :=
  fun σ => let l := fresh (dom σ) in
           (Ok (VRef l), <[l := Obj cls ∅]> σ).

End Py.

Export Py.

Notation "x <- m ;; k" := (bind m (fun x => k))
  (at level 100, m at next level, right associativity).
Notation "m ;;; k" := (bind m (fun _ => k))
  (at level 100, right associativity).

(** ** [src/ooodev/events/args/event_args.py] *)

Module EventArgs.

Definition __init__ (self source : value) : M unit :=
  setattr self "_source" source ;;;
  setattr self "_event_name" (VStr (lit "")).

(** The call [EventArgs(source)]. *)
Definition new (source : value) : M value :=
  self <- alloc "EventArgs" ;;
  __init__ self source ;;;
  ret self.

Definition source (self : value) : M value :=
  getattr self "_source".

Definition source_setter (self value : value) : M unit :=
  setattr self "_source" value.

Definition event_name (self : value) : M value :=
  getattr self "_event_name".

Definition event_name_setter (self value : value) : M unit :=
  setattr self "_event_name" value.

Definition event_data (self : value) : M value :=
  try_except (getattr self "_event_data")
    (fun e => if isinstance e "AttributeError" then ret VNone else raise e).

Definition event_data_setter (self value : value) : M unit :=
  setattr self "_event_data" value.

(** A write through one of the two properties other than
    [event_data]. *)
Inductive other_write : Type :=
| SetSource (v : value)
| SetEventName (v : value).

Definition do_write (self : value) (w : other_write) : M unit :=
  match w with
  | SetSource v => source_setter self v
  | SetEventName v => event_name_setter self v
  end.

Fixpoint do_writes (self : value) (ws : list other_write) : M unit :=
  match ws with
  | [] => ret tt
  | w :: ws' => do_write self w ;;; do_writes self ws'
  end.

End EventArgs.

(** ** The builtins [str], [repr] and f-string formatting *)

Module Builtins.

(** Lower-case hexadecimal digit of [d < 16]. *)
Definition hexdigit (d : N) : N :=
  if (d <? 10)%N then (48 + d)%N else (87 + d)%N.

(** [n] on exactly [width] hexadecimal digits (as in [\xhh], [\uhhhh]). *)
Fixpoint hex (width : nat) (n : N) : pystr :=
  match width with
  | O => []
  | S w => hex w (n / 16)%N ++ [hexdigit (n mod 16)%N]
  end.

(** [str(z)] for an [int]. *)
Definition decimal (z : Z) : pystr :=
  lit (NilZero.string_of_int (Z.to_int z)).

Section Repr.

(** [str.isprintable] on one code point above ASCII (the Unicode
    database decides it). *)
Variable isprintable : N -> bool.

(** [str(o)] and [repr(o)] of an instance run the [__str__] and
    [__repr__] of its class. *)
Variable object_str : loc -> M pystr.
Variable object_repr : loc -> M pystr.

(** The quote [repr] chooses: a double quote when the string has
    single quotes and no double quote, a single quote otherwise. *)
Definition quote_of (s : pystr) : N :=
  if existsb (N.eqb 39) s
  then (if existsb (N.eqb 34) s then 39%N else 34%N)
  else 39%N.

(** How [repr] writes one code point inside the quotes [quote]. *)
Definition escape (quote ch : N) : pystr :=
  if ((ch =? quote) || (ch =? 92))%N then [92; ch]%N
  else if (ch =? 9)%N then [92; 116]%N
  else if (ch =? 10)%N then [92; 110]%N
  else if (ch =? 13)%N then [92; 114]%N
  else if ((ch <? 32) || (ch =? 127))%N then [92; 120]%N ++ hex 2 ch
  else if (ch <? 127)%N then [ch]
  else if isprintable ch then [ch]
  else if (ch <=? 255)%N then [92; 120]%N ++ hex 2 ch
  else if (ch <=? 65535)%N then [92; 117]%N ++ hex 4 ch
  else [92; 85]%N ++ hex 8 ch.

(** [repr(s)] for a [str]. *)
Definition repr_str (s : pystr) : pystr :=
  let q := quote_of s in
  [q] ++ concat (map (escape q) s) ++ [q].

Definition repr (v : value) : M pystr :=
  match v with
  | VNone => ret (lit "None")
  | VBool true => ret (lit "True")
  | VBool false => ret (lit "False")
  | VInt z => ret (decimal z)
  | VStr s => ret (repr_str s)
  | VRef l => object_repr l
  end.

Definition str (v : value) : M pystr :=
  match v with
  | VStr s => ret s
  | VRef l => object_str l
  | _ => repr v
  end.

(** A replacement field [{v}] of an f-string. *)
Definition format (v : value) : M pystr := str v.

End Repr.

End Builtins.

(** ** [src/ooodev/exceptions/ex.py]: [CancelEventError] *)

Module CancelEventError.

Section WithBuiltins.

Variable isprintable : N -> bool.
Variable object_str : loc -> M pystr.
Variable object_repr : loc -> M pystr.

Definition IndexError : exn :=
  Exn "IndexError" [VStr (lit "tuple index out of range")].

(** [CancelEventError(event_args, message, *args)]: the exception
    built, with the [args] tuple that [super().__init__] stores. *)
Definition __init__ (event_args message : value) (args : list value)
  : M exn :=
  message <-
    match message with
    | VNone =>
        n <- EventArgs.event_name event_args ;;
        s <- Builtins.format isprintable object_str object_repr n ;;
        ret (VStr (lit "Event '" ++ s ++ lit "' is canceled!"))
    | _ => ret message
    end ;;
  ret (Exn "CancelEventError" (event_args :: message :: args)).

Definition __str__ (self : exn) : M pystr :=
  match exn_args self !! 1%nat with
  | Some v => Builtins.repr isprintable object_repr v
  | None => raise IndexError
  end.

End WithBuiltins.

End CancelEventError.

(** ** [ooodev/events/args/cancel_event_args.py]: [CancelEventArgs] *)

Module CancelEventArgs.

(** Modelled from the spec: the constructor of [CancelEventArgs], whose
    file is not among the sources.  The class extends [EventArgs] and
    adds a boolean [cancel] flag, initialized [False]. *)
Definition __init__ (self source : value) : M unit :=
  EventArgs.__init__ self source ;;;
  setattr self "cancel" (VBool false).

(** Modelled from the spec: the call [CancelEventArgs(source)], as
    imported by the tests. *)
Definition new (source : value) : M value :=
  self <- alloc "CancelEventArgs" ;;
  __init__ self source ;;;
  ret self.


(** Modelled from the spec: writing [cancel]; any subscriber may do it
    during a dispatch. *)
Definition cancel_setter (self value : value) : M unit :=
  setattr self "cancel" value.

End CancelEventArgs.

(** ** [ooodev/events/lo_events.py]: the [Events] registry *)

Module Events.

(** Modelled from the spec: a subscriber callback of the registry, a
    callable that accepts [(source, args)].  [cb_id] is the identity of
    the function object, [cb_run] what calling it does to the heap.  A
    subscriber has no access to the registry. *)
Record callback : Type :=
  Callback { cb_id : N; cb_run : value -> value -> M value }.

(** One invocation made by a dispatch: who was called, with which two
    arguments, and the heap the callee started in. *)
Record call : Type :=
  Call { callee : callback; arg_source : value; arg_args : value;
         at_heap : heap }.

(** Modelled from the spec: the state of the registry, a mapping from
    event name to an ordered sequence of subscriber callbacks. *)
Abbreviation registry := (gmap pystr (list callback)).

(** Modelled from the spec: the subscriber list of [name], empty when
    [name] was never registered. *)
Definition subscribers (reg : registry) (name : pystr) : list callback :=
  default [] (reg !! name).

(** Modelled from the spec: [on(name, callback)] appends [callback] to
    the subscriber list for [name], creating the list if absent;
    duplicates accumulate. *)
Definition on (name : pystr) (cb : callback) (reg : registry) : registry :=
  <[name := subscribers reg name ++ [cb]]> reg.

(** Modelled from the spec: dropping the first registration that is the
    function object [cb], none when there is no such registration. *)
Fixpoint remove_first (cb : callback) (l : list callback) : list callback :=
  match l with
  | [] => []
  | c :: l' => if (cb_id c =? cb_id cb)%N then l' else c :: remove_first cb l'
  end.

(** Modelled from the spec: [off(name, callback)] removes the first
    matching registration; no-op if not found. *)
Definition off (name : pystr) (cb : callback) (reg : registry) : registry :=
  match reg !! name with
  | Some l => <[name := remove_first cb l]> reg
  | None => reg
  end.

(** Modelled from the spec: the loop of [trigger] over the subscribers,
    in registration order, each called with [(args.source, args)] and
    run to completion before the next; an exception leaves the loop.
    The third component lists the invocations made. *)
Fixpoint dispatch (subs : list callback) (args : value) (σ : heap)
  : result unit * heap * list call :=
  match subs with
  | [] => (Ok tt, σ, [])
  | cb :: rest =>
      match EventArgs.source args σ with
      | (Raise e, σ1) => (Raise e, σ1, [])
      | (Ok src, σ1) =>
          match cb_run cb src args σ1 with
          | (Raise e, σ2) => (Raise e, σ2, [Call cb src args σ1])
          | (Ok _, σ2) =>
              let '(r, σ3, t) := dispatch rest args σ2 in
              (r, σ3, Call cb src args σ1 :: t)
          end
      end
  end.

(** Modelled from the spec: [trigger(name, args)] sets
    [args.event_name = name], then invokes each registered subscriber
    for [name]. *)
Definition trigger (reg : registry) (name : pystr) (args : value) (σ : heap)
  : result unit * heap * list call :=
  match EventArgs.event_name_setter args (VStr name) σ with
  | (Raise e, σ1) => (Raise e, σ1, [])
  | (Ok _, σ1) => dispatch (subscribers reg name) args σ1
  end.

(** The heap an invocation left behind. *)
Definition after (c : call) : heap :=
  (cb_run (callee c) (arg_source c) (arg_args c) (at_heap c)).2.

(** The heaps a dispatch went through: the one each invocation started
    in, then the one [trigger] ended in. *)
Definition states (t : list call) (σ' : heap) : list heap :=
  map at_heap t ++ [σ'].

(** Each invocation of [t] started in the heap the one before it left
    behind, and the dispatch ended in the heap the last one left. *)
Fixpoint linked (t : list call) (σ' : heap) : Prop :=
  match t with
  | [] => True
  | c :: t' => head (states t' σ') = Some (after c) /\ linked t' σ'
  end.


(** [a.event_name] reads as [n]. *)
Definition named (n : pystr) (a : value) (σ : heap) : Prop :=
  EventArgs.event_name a σ = (Ok (VStr n), σ).


(** What each invocation of a dispatch on [a] was passed:
    [(a.source, a)], the source as the args object had it then. *)
Definition passed (a : value) (c : call) : Prop :=
  arg_args c = a
  /\ EventArgs.source a (at_heap c) = (Ok (arg_source c), at_heap c).










End Events.

(** ** Subscribers and scenarios of the tests *)

Module Scenario.

Import Events.

(** [def h(source, args): args.cancel = True], the subscriber of
    [test_trigger_event_canceled]. *)
Definition h_cancel : callback :=
  Callback 1 (fun _ args =>
    CancelEventArgs.cancel_setter args (VBool true) ;;; ret VNone).


(** [def h(source, args): raise ValueError("boom")]. *)
Definition h_raise : callback :=
  Callback 4 (fun _ _ => raise (Exn "ValueError" [VStr (lit "boom")])).

(** [def h(source, args): pass]. *)
Definition h_pass : callback :=
  Callback 5 (fun _ _ => ret VNone).

(** The heap after [cargs = CancelEventArgs(7)] in an empty heap, and
    [cargs] itself. *)
Definition heap0 : heap := (CancelEventArgs.new (VInt 7) ∅).2.
Definition cargs : value := VRef 1%positive.

(** [events = Events()] followed by [events.on("save", h)] for each [h]
    of [hs], in order. *)
Definition registered (hs : list callback) : registry :=
  fold_left (fun reg h => on (lit "save") h reg) hs ∅.


(** [events.trigger("save", cargs)] after those registrations. *)
Definition run (hs : list callback) : result unit * heap * list call :=
  trigger (registered hs) (lit "save") cargs heap0.

(** The heap after [ea = EventArgs(7); ea.event_name = "save"] in an
    empty heap; [ea] is then the object [cargs] names. *)
Definition heap1 : heap :=
  ((ea <- EventArgs.new (VInt 7) ;;
    EventArgs.event_name_setter ea (VStr (lit "save"))) ∅).2.

(** An interpreter in which no code point above ASCII is printable and
    every instance prints as [<object>]. *)
Definition ascii_only : N -> bool := fun _ => false.
Definition object_text : loc -> M pystr := fun _ => ret (lit "<object>").

(** [str.lower] and [str.casefold] on ASCII letters only. *)
Definition ascii_lower (s : pystr) : pystr :=
  map (fun c => if ((65 <=? c) && (c <=? 90))%N then (c + 32)%N else c) s.

End Scenario.

(** ** The [str] methods [index] and slicing *)

Module PyStr.

(** [s.startswith(sub)]. *)
Fixpoint starts_with (sub s : pystr) : bool :=
  match sub, s with
  | [], _ => true
  | _ :: _, [] => false
  | a :: sub', b :: s' => (a =? b)%N && starts_with sub' s'
  end.

(** The lowest index at which [sub] occurs in [s], if any:
    [s.find(sub)] without the [-1]. *)
Fixpoint find (sub s : pystr) : option nat :=
  if starts_with sub s then Some O
  else match s with
       | [] => None
       | _ :: s' => S <$> find sub s'
       end.

(** [s[start:stop]] for indices that are not negative. *)
Definition slice (s : pystr) (start stop : nat) : pystr :=
  take (stop - start) (drop start s).

Definition ValueError (msg : pystr) : exn := Exn "ValueError" [VStr msg].

(** [s.index(sub)]: as [find], but a missing substring raises. *)
Definition index (s sub : pystr) : result nat :=
  match find sub s with
  | Some i => Ok i
  | None => Raise (ValueError (lit "substring not found"))
  end.

End PyStr.

(** ** [src/ooodev/utils/lo.py]: the functions that need no office *)

Module Lo.

Definition UNKNOWN : Z := 0.
Definition WRITER : Z := 1.
Definition BASE : Z := 2.
Definition CALC : Z := 3.
Definition DRAW : Z := 4.
Definition IMPRESS : Z := 5.
Definition MATH : Z := 6.

Definition UNKNOWN_STR : pystr := lit "unknown".
Definition WRITER_STR : pystr := lit "swriter".
Definition BASE_STR : pystr := lit "sbase".
Definition CALC_STR : pystr := lit "scalc".
Definition DRAW_STR : pystr := lit "sdraw".
Definition IMPRESS_STR : pystr := lit "simpress".
Definition MATH_STR : pystr := lit "smath".

Definition make_uno_cmd (item_name : pystr) : pystr :=
  lit "vnd.sun.star.script:Foo/Foo." ++ item_name
    ++ lit "?language=Java&location=share".

(** A [ValueError] of [index] is caught and replaced by one that names
    the missing header. *)
Definition extract_item_name (uno_cmd : pystr) : result pystr :=
  match PyStr.index uno_cmd (lit "Foo.") with
  | Raise _ =>
      Raise (PyStr.ValueError
             (lit "Could not find Foo header in command: '" ++ uno_cmd ++ lit "'"))
  | Ok foo_pos =>
      match PyStr.index uno_cmd (lit "?language") with
      | Raise _ =>
          Raise (PyStr.ValueError
                 (lit "Could not find language header in command: '"
                    ++ uno_cmd ++ lit "'"))
      | Ok lang_pos =>
          let start := (foo_pos + 4)%nat in
          Ok (PyStr.slice uno_cmd start lang_pos)
      end
  end.

(** [doc_type_str]: the name and the lines printed. *)
Definition doc_type_str (doc_type_val : Z) : pystr * list pystr :=
  let i := doc_type_val in
  if (i =? WRITER)%Z then (WRITER_STR, [])
  else if (i =? IMPRESS)%Z then (IMPRESS_STR, [])
  else if (i =? DRAW)%Z then (DRAW_STR, [])
  else if (i =? CALC)%Z then (CALC_STR, [])
  else if (i =? BASE)%Z then (BASE_STR, [])
  else if (i =? MATH)%Z then (MATH_STR, [])
  else (WRITER_STR,
        [lit "Do not recognize extension '" ++ Builtins.decimal i
           ++ lit "'; using writer"]).

Section CaseMapping.

(** [str.casefold] and [str.lower], which the Unicode database
    decides. *)
Variable casefold : pystr -> pystr.
Variable lower : pystr -> pystr.

(** [ext_to_doc_type]: the name and the lines printed. *)
Definition ext_to_doc_type (ext : pystr) : pystr * list pystr :=
  let e := casefold ext in
  if bool_decide (e = lit "") then
    (WRITER_STR, [lit "Empty string: Using writer"])
  else if bool_decide (e = lit "odt") then (WRITER_STR, [])
  else if bool_decide (e = lit "odp") then (IMPRESS_STR, [])
  else if bool_decide (e = lit "odg") then (DRAW_STR, [])
  else if bool_decide (e = lit "ods") then (CALC_STR, [])
  else if bool_decide (e = lit "odb") then (BASE_STR, [])
  else if bool_decide (e = lit "odf") then (MATH_STR, [])
  else (WRITER_STR,
        [lit "Do not recognize extension '" ++ ext ++ lit "'; using writer"]).

(** [ext_to_format]: the filter name and the lines printed. *)
Definition ext_to_format (ext : pystr) (doc_type : Z) : pystr * list pystr :=
  let i := doc_type in
  let s := lower ext in
  if bool_decide (s = lit "doc") then (lit "MS Word 97", [])
  else if bool_decide (s = lit "docx") then (lit "Office Open XML Text", [])
  else if bool_decide (s = lit "rtf") then
    if (i =? CALC)%Z then (lit "Rich Text Format (StarCalc)", [])
    else (lit "Rich Text Format", [])
  else if bool_decide (s = lit "odt") then (lit "writer8", [])
  else if bool_decide (s = lit "ott") then (lit "writer8_template", [])
  else if bool_decide (s = lit "pdf") then
    if (i =? WRITER)%Z then (lit "writer_pdf_Export", [])
    else if (i =? IMPRESS)%Z then (lit "impress_pdf_Export", [])
    else if (i =? DRAW)%Z then (lit "draw_pdf_Export", [])
    else if (i =? CALC)%Z then (lit "calc_pdf_Export", [])
    else if (i =? MATH)%Z then (lit "math_pdf_Export", [])
    else (lit "writer_pdf_Export", [])
  else if bool_decide (s = lit "txt") then (lit "Text", [])
  else if bool_decide (s = lit "ppt") then (lit "MS PowerPoint 97", [])
  else if bool_decide (s = lit "pptx") then (lit "Impress MS PowerPoint 2007 XML", [])
  else if bool_decide (s = lit "odp") then (lit "impress8", [])
  else if bool_decide (s = lit "odg") then (lit "draw8", [])
  else if bool_decide (s = lit "jpg") then
    if (i =? IMPRESS)%Z then (lit "impress_jpg_Export", [])
    else (lit "draw_jpg_Export", [])
  else if bool_decide (s = lit "png") then
    if (i =? IMPRESS)%Z then (lit "impress_png_Export", [])
    else (lit "draw_png_Export", [])
  else if bool_decide (s = lit "xls") then (lit "MS Excel 97", [])
  else if bool_decide (s = lit "xlsx") then (lit "Calc MS Excel 2007 XML", [])
  else if bool_decide (s = lit "csv") then (lit "Text - txt - csv (StarCalc)", [])
  else if bool_decide (s = lit "ods") then (lit "calc8", [])
  else if bool_decide (s = lit "odb") then (lit "StarOffice XML (Base)", [])
  else if bool_decide (s = lit "htm") || bool_decide (s = lit "html") then
    if (i =? WRITER)%Z then (lit "HTML (StarWriter)", [])
    else if (i =? IMPRESS)%Z then (lit "impress_html_Export", [])
    else if (i =? DRAW)%Z then (lit "draw_html_Export", [])
    else if (i =? CALC)%Z then (lit "HTML (StarCalc)", [])
    else (lit "HTML", [])
  else if bool_decide (s = lit "xhtml") then
    if (i =? WRITER)%Z then (lit "XHTML Writer File", [])
    else if (i =? IMPRESS)%Z then (lit "XHTML Impress File", [])
    else if (i =? DRAW)%Z then (lit "XHTML Draw File", [])
    else if (i =? CALC)%Z then (lit "XHTML Calc File", [])
    else (lit "XHTML Writer File", [])
  else if bool_decide (s = lit "xml") then
    if (i =? WRITER)%Z then (lit "OpenDocument Text Flat XML", [])
    else if (i =? IMPRESS)%Z then (lit "OpenDocument Presentation Flat XML", [])
    else if (i =? DRAW)%Z then (lit "OpenDocument Drawing Flat XML", [])
    else if (i =? CALC)%Z then (lit "OpenDocument Spreadsheet Flat XML", [])
    else (lit "OpenDocument Text Flat XML", [])
  else (lit "Text",
        [lit "Do not recognize extension '" ++ ext ++ lit "'; using text"]).

End CaseMapping.

(** What one call of [xdesktop.terminate()] does: it returns a boolean,
    or raises [DisposedException], or raises something else whose text
    is [msg]. *)
Inductive terminate_result : Type :=
| Terminated (is_dead : bool)
| Disposed
| Failed (msg : pystr).

(** The outcomes after which [try_to_terminate] answers [True]. *)
Definition succeeds (r : terminate_result) : bool :=
  match r with
  | Terminated true | Disposed => true
  | Terminated false | Failed _ => false
  end.

(** The class variables of [Lo] that [close_office] reads and writes,
    the number of calls of [xdesktop.terminate()] made so far, and the
    lines printed so far. *)
Record office : Type :=
  Office { _doc : value; xdesktop : value; is_office_terminated : bool;
           calls : nat; out : list pystr }.

Definition print (line : pystr) (st : office) : office :=
  Office (_doc st) (xdesktop st) (is_office_terminated st) (calls st)
    (out st ++ [line]).

Definition inspect {A : Type} (a : A) : {b : A | a = b} := exist _ a eq_refl.

Section Desktop.

(** The office at the other end: the outcome of the [k]-th call of
    [xdesktop.terminate()], counted from zero. *)
Variable terminate : nat -> terminate_result.

Definition try_to_terminate (num_tries : Z) (st : office) : bool * office :=
  let st1 := Office (_doc st) (xdesktop st) (is_office_terminated st)
               (S (calls st)) (out st) in
  match terminate (calls st) with
  | Terminated true =>
      (true,
       print (if (num_tries >? 1)%Z
              then Builtins.decimal num_tries ++ lit ". Office terminated"
              else lit "Office terminated") st1)
  | Terminated false =>
      (false,
       print (Builtins.decimal num_tries ++ lit ". Office failed to terminate") st1)
  | Disposed => (true, print (lit "Office link disposed") st1)
  | Failed msg => (false, print (lit "Termination exception: " ++ msg) st1)
  end.

(** The [while] loop of [close_office]; the pause of [time.sleep(0.2)]
    before each attempt leaves no trace here. *)
Equations? close_office_loop (num_tries : Z) (st : office) : office
  by wf (Z.to_nat (4 - num_tries)) lt :=
  close_office_loop num_tries st
    with inspect (negb (is_office_terminated st) && (num_tries <? 4)%Z) => {
    | exist _ true _ =>
        let '(is_dead, st1) := try_to_terminate num_tries st in
        close_office_loop (num_tries + 1)
          (Office (_doc st1) (xdesktop st1) is_dead (calls st1) (out st1));
    | exist _ false _ => st }.
Proof. apply andb_true_iff in e as [_ e]. apply Z.ltb_lt in e. lia. Qed.

Definition close_office (st : office) : office :=
  let st := print (lit "Closing Office") st in
  let st := Office VNone (xdesktop st) (is_office_terminated st) (calls st)
              (out st) in
  match xdesktop st with
  | VNone => print (lit "No office connection found") st
  | _ =>
      if is_office_terminated st
      then print (lit "Office has already been requested to terminate") st
      else close_office_loop 1 st
  end.

End Desktop.

End Lo.

(** ** [src/ooodev/events/args/event_args.py]: [__repr__] *)

Module EventArgsRepr.

Section WithBuiltins.

Variable isprintable : N -> bool.
Variable object_str : loc -> M pystr.
Variable object_repr : loc -> M pystr.

(** [self.__class__.__name__] of an instance. *)
Definition class_name (self : value) : M pystr :=
  fun σ => match self with
           | VRef l =>
               match σ !! l with
               | Some ob => (Ok (lit (obj_cls ob)), σ)
               | None => (Raise (AttributeError "__class__"), σ)
               end
           | _ => (Raise (AttributeError "__class__"), σ)
           end.

Definition __repr__ (self : value) : M pystr :=
  cls <- class_name self ;;
  n <- EventArgs.event_name self ;;
  s <- Builtins.format isprintable object_str object_repr n ;;
  ret (lit "<" ++ cls ++ lit ": " ++ s ++ lit ">").

End WithBuiltins.

End EventArgsRepr.

(** ** [src/ooodev/exceptions/ex.py]: the other exceptions with a text *)

Module Ex.

(** A character that [repr] copies as it is and that is no quote:
    printable ASCII other than the backslash and the two quotes. *)
Definition plain_char (c : N) : bool :=
  ((32 <=? c) && (c <? 127) && negb (c =? 92) && negb (c =? 34)
   && negb (c =? 39))%N.

Definition plain (s : pystr) : bool := forallb plain_char s.

Section WithBuiltins.

Variable isprintable : N -> bool.
Variable object_str : loc -> M pystr.
Variable object_repr : loc -> M pystr.

Definition IndexError : exn :=
  Exn "IndexError" [VStr (lit "tuple index out of range")].

(** [self.args[i]]. *)
Definition arg (self : exn) (i : nat) : M value :=
  match exn_args self !! i with
  | Some v => ret v
  | None => raise IndexError
  end.

Definition MissingInterfaceError__init__
    (interface message : value) (args : list value) : M exn :=
  message <-
    match message with
    | VNone =>
        try_except
          (n <- getattr interface "__pyunointerface__" ;;
           s <- Builtins.format isprintable object_str object_repr n ;;
           ret (VStr (lit "Missing interface " ++ s)))
          (fun e => if isinstance e "AttributeError"
                    then ret (VStr (lit "Missing Uno Interface Error"))
                    else raise e)
    | _ => ret message
    end ;;
  ret (Exn "MissingInterfaceError" (interface :: message :: args)).

Definition MissingInterfaceError__str__ (self : exn) : M pystr :=
  v <- arg self 1 ;;
  Builtins.repr isprintable object_repr v.

Definition PropertyError__init__ (prop_name : value) (args : list value) : M exn :=
  ret (Exn "PropertyError" (prop_name :: args)).

Definition PropertyError__str__ (self : exn) : M pystr :=
  v <- arg self 0 ;;
  s <- Builtins.format isprintable object_str object_repr v ;;
  ret (Builtins.repr_str isprintable (lit "Property Error for: " ++ s)).

(** [PropertyNotFoundError] inherits the constructor of
    [PropertyError]. *)
Definition PropertyNotFoundError__init__ (prop_name : value) (args : list value)
  : M exn :=
  ret (Exn "PropertyNotFoundError" (prop_name :: args)).

Definition PropertyNotFoundError__str__ (self : exn) : M pystr :=
  v <- arg self 0 ;;
  s <- Builtins.format isprintable object_str object_repr v ;;
  ret (Builtins.repr_str isprintable (lit "Property not found for: " ++ s)).

Definition UnOpenableError__init__ (fnm : value) (args : list value) : M exn :=
  ret (Exn "UnOpenableError" (fnm :: args)).

Definition UnOpenableError__str__ (self : exn) : M pystr :=
  v <- arg self 0 ;;
  s <- Builtins.format isprintable object_str object_repr v ;;
  ret (Builtins.repr_str isprintable (lit "Un-openable file: '" ++ s ++ lit "'")).

Definition NotSupportedServiceError__init__
    (service_name : value) (args : list value) : M exn :=
  ret (Exn "NotSupportedServiceError" (service_name :: args)).

Definition NotSupportedServiceError__str__ (self : exn) : M pystr :=
  v <- arg self 0 ;;
  s <- Builtins.format isprintable object_str object_repr v ;;
  ret (Builtins.repr_str isprintable
         (lit "Service not supported: '" ++ s ++ lit "'")).

Definition CreateInstanceError__init__
    (interface service message : value) (args : list value) : M exn :=
  message <-
    match message with
    | VNone =>
        s <- Builtins.format isprintable object_str object_repr service ;;
        ret (VStr (lit "Unable to create instance of " ++ s))
    | _ => ret message
    end ;;
  ret (Exn "CreateInstanceError" (interface :: service :: message :: args)).

Definition CreateInstanceError__str__ (self : exn) : M pystr :=
  interface_name <-
    try_except
      (o <- arg self 0 ;; getattr o "__pyunointerface__")
      (fun e => if isinstance e "AttributeError"
                then ret (VStr (lit "Unknown Interface"))
                else raise e) ;;
  a1 <- arg self 1 ;;
  s1 <- Builtins.format isprintable object_str object_repr a1 ;;
  s2 <- Builtins.format isprintable object_str object_repr interface_name ;;
  a2 <- arg self 2 ;;
  s3 <- Builtins.format isprintable object_str object_repr a2 ;;
  ret (lit "Unable to create instance for service '" ++ s1
         ++ lit "' with interface of '" ++ s2 ++ lit "'." ++ [10%N] ++ s3).

End WithBuiltins.

End Ex.

(** ** [src/ooodev/utils/uno_util.py]: [UnoEnum] *)

Module UnoEnum.

(** The class variable [_loaded] and the heap of instances. *)
Record state : Type :=
  State { _loaded : gmap pystr loc; objects : heap }.

(** [if v:]. *)
Definition truthy (v : value) : bool :=
  match v with
  | VNone => false
  | VBool b => b
  | VInt z => negb (z =? 0)%Z
  | VStr s => match s with [] => false | _ => true end
  | VRef _ => true
  end.

(** [self._initialized]: the instance variable when it is set, the
    class variable [False] otherwise. *)
Definition _initialized (self : value) (σ : heap) : value :=
  default (VBool false) (lookup_attr σ self "_initialized").

(** [self.__dict__[key] = value]. *)
Definition dict_set (self : value) (key : string) (value : value) (σ : heap)
  : heap :=
  match self with
  | VRef l =>
      match σ !! l with
      | Some ob => <[l := Obj (obj_cls ob) (<[key := value]> (obj_dict ob))]> σ
      | None => σ
      end
  | _ => σ
  end.

Definition __new__ (type_name : pystr) (st : state) : value * state :=
  match _loaded st !! type_name with
  | Some l => (VRef l, st)
  | None =>
      let l := fresh (dom (objects st)) in
      (VRef l,
       State (<[type_name := l]> (_loaded st))
         (<[l := Obj "UnoEnum" {["_type_name" := VStr type_name]}]> (objects st)))
  end.

Definition __setattr__ (self : value) (key : string) (value : value) (st : state)
  : state :=
  if truthy (_initialized self (objects st)) then st
  else State (_loaded st) (dict_set self key value (objects st)).

Definition __init__ (self : value) (type_name : pystr) (st : state) : state :=
  __setattr__ self "_initialized" (VBool true) st.

(** The call [UnoEnum(type_name)]: [__new__], then [__init__] on what
    it returned. *)
Definition new (type_name : pystr) (st : state) : value * state :=
  let '(e, st1) := __new__ type_name st in
  (e, __init__ e type_name st1).

Section Uno.

Variable isprintable : N -> bool.
Variable object_str : loc -> M pystr.
Variable object_repr : loc -> M pystr.

(** [uno.Enum(type_name, name)]: the enum value, or [None] when the
    call raises. *)
Variable uno_Enum : value -> string -> option value.

(** [__getattr__], which Python calls when the ordinary lookup of
    [name] has failed.  An instance without [_type_name], which
    [__new__] never makes, sends the lookup of [self._type_name] through
    [__getattr__] again and again until the interpreter gives up. *)
Definition __getattr__ (self : value) (name : string) (st : state)
  : result value * state :=
  if truthy (_initialized self (objects st)) then
    match lookup_attr (objects st) self "_type_name" with
    | Some type_name =>
        match uno_Enum type_name name with
        | Some e =>
            (Ok e, State (_loaded st) (dict_set self name e (objects st)))
        | None =>
            match Builtins.format isprintable object_str object_repr type_name
                    (objects st) with
            | (Ok s, σ) =>
                (Raise (Exn "AttributeError"
                          [VStr (lit "Enum " ++ s ++ lit " has no attribute "
                                   ++ lit name)]),
                 State (_loaded st) σ)
            | (Raise e, σ) => (Raise e, State (_loaded st) σ)
            end
        end
    | None => (Raise (Exn "RecursionError" []), st)
    end
  else
    match lookup_attr (objects st) self name with
    | Some v => (Ok v, st)
    | None => (Raise (AttributeError name), st)
    end.

(** The property [typeName]: [return self._type_name].  The class
    binds no name [_type_name], so this read finds the entry of the
    instance dictionary, or else goes to [__getattr__]. *)
Definition typeName (self : value) (st : state) : result value * state :=
  match lookup_attr (objects st) self "_type_name" with
  | Some v => (Ok v, st)
  | None => __getattr__ self "_type_name" st
  end.

(** Names written with two leading and two trailing underscores, the
    interpreter's own: [__class__], [__dict__], [__init__], ... *)
Definition dunder (name : string) : bool :=
  String.prefix "__" name && String.prefix "__" (String.rev name).

(** The names the ordinary lookup may find on the class or on
    [object], so that [__getattr__] is never asked for them: the
    property [typeName], the class variables [_initialized] and
    [_loaded], and the names with double underscores (the methods of the
    class are among them). *)
Definition class_defines (name : string) : bool :=
  bool_decide (name ∈ ["typeName"; "_initialized"; "_loaded"]) || dunder name.

(** [self.name] on an instance [self] of the class, in the order of
    Python's attribute lookup: the property [typeName] of the class,
    which wins over the instance; then the instance dictionary; then the
    class variables [_initialized] and [_loaded]; and [__getattr__] only
    when all of these have failed.  [None] where the read ends at an
    object that is no value here: the dictionary [_loaded], and whatever
    a name with double underscores stands for. *)
Definition attr (self : value) (name : string) (st : state)
  : option (result value * state) :=
  if String.eqb name "typeName" then Some (typeName self st)
  else if dunder name then None
  else
    match lookup_attr (objects st) self name with
    | Some v => Some (Ok v, st)
    | None =>
        if String.eqb name "_initialized" then Some (Ok (VBool false), st)
        else if String.eqb name "_loaded" then None
        else Some (__getattr__ self name st)
    end.

End Uno.

(** Every enum of [_loaded] is an instance that carries its own type
    name and has been initialized. *)
Definition consistent (st : state) : Prop :=
  forall type_name l,
    _loaded st !! type_name = Some l ->
    lookup_attr (objects st) (VRef l) "_type_name" = Some (VStr type_name)
    /\ lookup_attr (objects st) (VRef l) "_initialized" = Some (VBool true).

End UnoEnum.

(** ** [src/ooodev/utils/gui.py]: menu ids and toolbar hiding *)

Module GUI.

(** The loop of [get_menu_max_id] over the item ids, by position. *)
Fixpoint scan_ids (ids : list Z) (max_id : Z) : Z :=
  match ids with
  | [] => max_id
  | id :: rest => scan_ids rest (if (id >? max_id)%Z then id else max_id)
  end.

(** [get_menu_max_id(bar)]; a menu bar is the list of its item ids,
    [bar.getItemId(i)] for [i] below [bar.getItemCount()]. *)
Definition get_menu_max_id (bar : option (list Z)) : Z :=
  match bar with
  | None => (-1)%Z
  | Some ids => scan_ids ids (-1)%Z
  end.

(** The inner loop of [hide_except]: the first element of [show_elms]
    equal to [el_name] is removed and the loop left; [None] when no
    element matches. *)
Fixpoint remove_match (el_name : pystr) (show_elms : list pystr)
  : option (list pystr) :=
  match show_elms with
  | [] => None
  | el :: rest =>
      if bool_decide (el = el_name) then Some rest
      else (fun r => el :: r) <$> remove_match el_name rest
  end.

(** [hide_except(lm, ui_elms, show_elms)], the elements given by their
    [ResourceURL]: the names passed to [lm.hideElement], in order, and
    the list [show_elms] as the call leaves it. *)
Fixpoint hide_except (ui_elms show_elms : list pystr)
  : list pystr * list pystr :=
  match ui_elms with
  | [] => ([], show_elms)
  | el_name :: rest =>
      match remove_match el_name show_elms with
      | Some show_elms' => hide_except rest show_elms'
      | None =>
          let '(hidden, remaining) := hide_except rest show_elms in
          (el_name :: hidden, remaining)
      end
  end.

(** The lines [hide_except] prints, one for each hidden element. *)
Definition hide_except_output (hidden : list pystr) : list pystr :=
  map (fun el_name => el_name ++ lit " hidden") hidden.

End GUI.

(** ** Scenarios for the office, the exceptions and the enums *)

Module Examples.

(** An office that fails once, refuses once, and is gone at the third
    call. *)
Definition stubborn (k : nat) : Lo.terminate_result :=
  match k with
  | 0%nat => Lo.Failed (lit "busy")
  | 1%nat => Lo.Terminated false
  | _ => Lo.Disposed
  end.

(** [Lo] with a desktop, a document and nothing requested yet. *)
Definition connected : Lo.office :=
  Lo.Office (VRef 2%positive) (VRef 1%positive) false 0 [].

(** [uno.Enum] for [com.sun.star.sheet.FillMode]: it knows [LINEAR]
    and [SIMPLE] and raises for every other name. *)
Definition fill_mode (type_name : value) (name : string) : option value :=
  if bool_decide (name = "LINEAR") || bool_decide (name = "SIMPLE")
  then Some (VStr (lit name))
  else None.

(** The state after [FillMode = UnoEnum("com.sun.star.sheet.FillMode")]
    in a new interpreter; [FillMode] is then the object [1]. *)
Definition with_fill_mode : UnoEnum.state :=
  (UnoEnum.new (lit "com.sun.star.sheet.FillMode") (UnoEnum.State ∅ ∅)).2.

End Examples.

(** * Properties *)

(** ** Attribute reads and writes *)

Section Attributes.

Implicit Types (σ : heap) (o v : value) (name : string) (l : loc).

Lemma fresh_unallocated σ : σ !! fresh (dom σ) = None.
Proof. apply not_elem_of_dom, is_fresh. Qed.

Lemma getattr_lookup σ o name v :
  lookup_attr σ o name = Some v -> getattr o name σ = (Ok v, σ).
Proof. intros H. unfold getattr. by rewrite H. Qed.

Lemma getattr_missing σ o name :
  lookup_attr σ o name = None ->
  getattr o name σ = (Raise (AttributeError name), σ).
Proof. intros H. unfold getattr. by rewrite H. Qed.

Lemma getattr_heap σ o name : (getattr o name σ).2 = σ.
Proof. unfold getattr. by destruct (lookup_attr σ o name). Qed.

Lemma setattr_ok σ l ob name v :
  σ !! l = Some ob ->
  setattr (VRef l) name v σ
  = (Ok tt, <[l := Obj (obj_cls ob) (<[name := v]> (obj_dict ob))]> σ).
Proof. intros H. unfold setattr. by rewrite H. Qed.

Lemma setattr_inv σ o name v σ' :
  setattr o name v σ = (Ok tt, σ') ->
  exists l ob, o = VRef l /\ σ !! l = Some ob
    /\ σ' = <[l := Obj (obj_cls ob) (<[name := v]> (obj_dict ob))]> σ.
Proof.
  unfold setattr. destruct o as [| | | |l]; try discriminate.
  destruct (σ !! l) as [ob|] eqn:E; [|discriminate].
  intros [= <-]. eauto.
Qed.

Lemma lookup_attr_setattr_eq σ o name v σ' :
  setattr o name v σ = (Ok tt, σ') -> lookup_attr σ' o name = Some v.
Proof.
  intros (l & ob & -> & Hl & ->)%setattr_inv. simpl.
  rewrite lookup_insert_eq. simpl. by rewrite lookup_insert_eq.
Qed.

Lemma lookup_attr_setattr_ne σ o name v σ' o' name' :
  setattr o name v σ = (Ok tt, σ') -> name <> name' ->
  lookup_attr σ' o' name' = lookup_attr σ o' name'.
Proof.
  intros (l & ob & -> & Hl & ->)%setattr_inv Hne.
  destruct o' as [| | | |l']; try done. simpl.
  destruct (decide (l = l')) as [<-|Hll].
  - rewrite lookup_insert_eq, Hl. simpl. by rewrite lookup_insert_ne.
  - by rewrite lookup_insert_ne.
Qed.

Lemma setattr_raises_heap σ o name v e σ' :
  setattr o name v σ = (Raise e, σ') -> σ' = σ.
Proof.
  unfold setattr. destruct o as [| | | |l]; try by intros [= _ <-].
  destruct (σ !! l); [discriminate | by intros [= _ <-]].
Qed.

End Attributes.

(** ** [EventArgs]: construction and properties *)

Section EventArgsProperties.

Implicit Types (σ : heap) (self src v : value) (l : loc).

(** The instance dictionary [EventArgs.__init__] leaves behind. *)
Lemma EventArgs_new_heap src σ :
  EventArgs.new src σ
  = (Ok (VRef (fresh (dom σ))),
     <[fresh (dom σ) :=
         Obj "EventArgs"
           (<["_event_name" := VStr (lit "")]> (<["_source" := src]> ∅))]> σ).
Proof.
  unfold EventArgs.new, EventArgs.__init__, bind, alloc, ret, setattr.
  rewrite lookup_insert_eq. simpl.
  rewrite lookup_insert_eq. simpl.
  by rewrite !insert_insert_eq.
Qed.

Lemma EventArgs_new_attrs src σ self σ' :
  EventArgs.new src σ = (Ok self, σ') ->
  lookup_attr σ' self "_source" = Some src
  /\ lookup_attr σ' self "_event_name" = Some (VStr (lit ""))
  /\ lookup_attr σ' self "_event_data" = None.
Proof.
  rewrite EventArgs_new_heap. intros [= <- <-]. simpl.
  rewrite lookup_insert_eq. simpl.
  by rewrite lookup_insert_eq, lookup_insert_ne, lookup_insert_eq,
    !lookup_insert_ne, lookup_empty.
Qed.

(** The [except AttributeError] clause turns a missing [_event_data]
    into [None]. *)
Lemma event_data_unset σ self :
  lookup_attr σ self "_event_data" = None ->
  EventArgs.event_data self σ = (Ok VNone, σ).
Proof.
  intros H. unfold EventArgs.event_data, try_except.
  by rewrite (getattr_missing _ _ _ H).
Qed.

Lemma event_data_set σ self v :
  lookup_attr σ self "_event_data" = Some v ->
  EventArgs.event_data self σ = (Ok v, σ).
Proof.
  intros H. unfold EventArgs.event_data, try_except.
  by rewrite (getattr_lookup _ _ _ _ H).
Qed.

(** Reading [event_data] raises on no receiver and in no heap. *)
Lemma event_data_total σ self :
  exists v, EventArgs.event_data self σ = (Ok v, σ).
Proof.
  destruct (lookup_attr σ self "_event_data") as [v|] eqn:E.
  - exists v. by apply event_data_set.
  - exists VNone. by apply event_data_unset.
Qed.

Lemma do_write_keeps_event_data σ self w σ' o :
  EventArgs.do_write self w σ = (Ok tt, σ') ->
  lookup_attr σ' o "_event_data" = lookup_attr σ o "_event_data".
Proof.
  destruct w; cbn [EventArgs.do_write];
    unfold EventArgs.source_setter, EventArgs.event_name_setter;
    intros H; by apply (lookup_attr_setattr_ne _ _ _ _ _ _ _ H).
Qed.

Lemma do_write_allocated σ self w l ob :
  self = VRef l -> σ !! l = Some ob ->
  exists σ' ob', EventArgs.do_write self w σ = (Ok tt, σ') /\ σ' !! l = Some ob'.
Proof.
  intros -> Hl.
  destruct w; cbn [EventArgs.do_write];
    unfold EventArgs.source_setter, EventArgs.event_name_setter;
    rewrite (setattr_ok _ _ _ _ _ Hl); do 2 eexists; split; try done;
    by rewrite lookup_insert_eq.
Qed.

Lemma do_writes_unset σ l ob ws :
  σ !! l = Some ob ->
  lookup_attr σ (VRef l) "_event_data" = None ->
  exists σ' ob', EventArgs.do_writes (VRef l) ws σ = (Ok tt, σ')
    /\ σ' !! l = Some ob'
    /\ lookup_attr σ' (VRef l) "_event_data" = None.
Proof.
  revert σ ob. induction ws as [|w ws IH]; intros σ ob Hl Hun.
  - exists σ, ob. by repeat split.
  - destruct (do_write_allocated σ (VRef l) w l ob eq_refl Hl)
      as (σ1 & ob1 & Hw & Hl1).
    destruct (IH σ1 ob1 Hl1) as (σ2 & ob2 & Hws & Hl2 & Hun2).
    { by rewrite (do_write_keeps_event_data _ _ _ _ _ Hw). }
    exists σ2, ob2. repeat split; try done.
    cbn [EventArgs.do_writes]. unfold bind at 1. by rewrite Hw.
Qed.

(** C5.  For every object [src] and every heap, [EventArgs(src)]
    returns normally a new instance (an identity unused before, every
    older object left as it was) whose [event_name] reads as the empty
    string, whose [event_data] reads as [None], and whose [source] reads
    as [src] itself: the reference passed in, not a copy of it. *)
Theorem C5_EventArgs_construction src σ :
  exists l σ',
    EventArgs.new src σ = (Ok (VRef l), σ')
    /\ σ !! l = None
    /\ (forall l', l' <> l -> σ' !! l' = σ !! l')
    /\ EventArgs.event_name (VRef l) σ' = (Ok (VStr (lit "")), σ')
    /\ EventArgs.event_data (VRef l) σ' = (Ok VNone, σ')
    /\ EventArgs.source (VRef l) σ' = (Ok src, σ').
Proof.
  destruct (EventArgs.new src σ) as [r σ'] eqn:Hnew.
  pose proof Hnew as Hheap. rewrite EventArgs_new_heap in Hheap.
  injection Hheap as <- <-.
  destruct (EventArgs_new_attrs _ _ _ _ Hnew) as (Hsrc & Hname & Hdata).
  eexists _, _. split; [reflexivity|]. split; [apply fresh_unallocated|].
  split; [intros l' Hne; by rewrite lookup_insert_ne|].
  split; [by apply getattr_lookup|].
  split; [by apply event_data_unset|].
  by apply getattr_lookup.
Qed.

(** C6.  On a freshly constructed [EventArgs], whatever was written
    through the other properties in between, reading [event_data]
    before it was ever written returns [None]: the read returns
    normally, no [AttributeError] leaves it. *)
Theorem C6_event_data_unset_reads_None src σ (ws : list EventArgs.other_write) :
  exists self σ1 σ2,
    EventArgs.new src σ = (Ok self, σ1)
    /\ EventArgs.do_writes self ws σ1 = (Ok tt, σ2)
    /\ EventArgs.event_data self σ2 = (Ok VNone, σ2).
Proof.
  destruct (EventArgs.new src σ) as [r σ1] eqn:Hnew.
  pose proof Hnew as Hheap. rewrite EventArgs_new_heap in Hheap.
  injection Hheap as <- Hσ1.
  destruct (EventArgs_new_attrs _ _ _ _ Hnew) as (_ & _ & Hdata).
  edestruct (do_writes_unset σ1 (fresh (dom σ))) as (σ2 & ob2 & Hws & _ & Hun);
    [by rewrite <- Hσ1, lookup_insert_eq | exact Hdata |].
  exists (VRef (fresh (dom σ))), σ1, σ2.
  split; [done|]. split; [exact Hws|]. by apply event_data_unset.
Qed.

(** C7.  For every string [s], the empty one included, and every
    [src]: after [e = EventArgs(src)] and [e.event_name = s], reading
    [e.event_name] returns exactly [s]. *)
Theorem C7_event_name_roundtrip (s : pystr) src σ :
  exists self σ1 σ2,
    EventArgs.new src σ = (Ok self, σ1)
    /\ EventArgs.event_name_setter self (VStr s) σ1 = (Ok tt, σ2)
    /\ EventArgs.event_name self σ2 = (Ok (VStr s), σ2).
Proof.
  rewrite EventArgs_new_heap.
  eexists _, _, _. split; [reflexivity|].
  unfold EventArgs.event_name_setter, EventArgs.event_name.
  rewrite (setattr_ok _ _ _ _ _ (lookup_insert_eq _ _ _)).
  split; [reflexivity|].
  apply getattr_lookup. simpl.
  rewrite lookup_insert_eq. simpl. by rewrite lookup_insert_eq.
Qed.

End EventArgsProperties.

(** ** The dispatch loop *)

Section Dispatch.

Import Events.

Implicit Types (reg : registry) (n : pystr) (a : value) (σ : heap).
Implicit Types (t : list call) (subs : list callback) (c : call).

Lemma source_heap a σ r σ1 : EventArgs.source a σ = (r, σ1) -> σ1 = σ.
Proof.
  intros H. pose proof (getattr_heap σ a "_source") as Hh.
  unfold EventArgs.source in H. by rewrite H in Hh.
Qed.


(** The shape of every run of the loop, however it ends. *)
Lemma dispatch_trace subs a σ r σ' t :
  dispatch subs a σ = (r, σ', t) ->
  head (states t σ') = Some σ
  /\ linked t σ'
  /\ Forall (passed a) t
  /\ map callee t `prefix_of` subs
  /\ (forall u, r = Ok u -> map callee t = subs).
Proof.
  revert σ r σ' t. induction subs as [|cb rest IH]; intros σ r σ' t H.
  - injection H as <- <- <-. repeat split; done.
  - cbn [dispatch] in H.
    destruct (EventArgs.source a σ) as [[src|e] σ1] eqn:Hs;
      pose proof (source_heap _ _ _ _ Hs) as ->.
    + destruct (cb_run cb src a σ) as [[v|e] σ2] eqn:Hr.
      * destruct (dispatch rest a σ2) as [[r3 σ3] t3] eqn:Hd.
        injection H as <- <- <-.
        destruct (IH _ _ _ _ Hd) as (Hh & Hl & Hp & Hpre & Hall).
        split; [done|]. split.
        { split; [|done]. unfold after. cbn. by rewrite Hr. }
        split; [constructor; [by split|done]|].
        split; [by apply prefix_cons|].
        intros u Hu. cbn. f_equal. by apply (Hall u).
      * injection H as <- <- <-.
        split; [done|]. split.
        { split; [|done]. unfold after. cbn. by rewrite Hr. }
        split; [constructor; [by split|constructor]|].
        split; [apply prefix_cons, prefix_nil|]. done.
    + injection H as <- <- <-.
      split; [done|]. split; [done|]. split; [constructor|].
      split; [apply prefix_nil | done].
Qed.

(** A loop over [pre ++ post] is the loop over [pre] and, when that one
    ended normally, the loop over [post]. *)
Lemma dispatch_app pre post a σ :
  dispatch (pre ++ post) a σ
  = match dispatch pre a σ with
    | (Ok _, σ1, t1) =>
        let '(r, σ2, t2) := dispatch post a σ1 in (r, σ2, t1 ++ t2)
    | (Raise e, σ1, t1) => (Raise e, σ1, t1)
    end.
Proof.
  revert σ. induction pre as [|cb pre IH]; intros σ.
  - cbn. by destruct (dispatch post a σ) as [[r σ2] t2].
  - cbn [app dispatch].
    destruct (EventArgs.source a σ) as [[src|e] σ1]; [|done].
    destruct (cb_run cb src a σ1) as [[v|e] σ2]; [|done].
    rewrite IH.
    destruct (dispatch pre a σ2) as [[[u|e] σ3] t3]; [|done].
    by destruct (dispatch post a σ3) as [[r σ4] t4].
Qed.

Lemma named_after_setter n a σ σ1 :
  EventArgs.event_name_setter a (VStr n) σ = (Ok tt, σ1) -> named n a σ1.
Proof.
  intros H. apply getattr_lookup.
  by apply (lookup_attr_setattr_eq _ _ _ _ _ H).
Qed.

End Dispatch.

(** ** Reading the flags of the args object *)

Section Flags.

Import Events.

Implicit Types (n : pystr) (a o v : value) (σ : heap) (name : string).



(** A write to one attribute, whether it succeeds or raises, leaves
    every other attribute of every object as it was. *)
Lemma setattr_keeps σ o name v o' name' :
  name <> name' ->
  lookup_attr (setattr o name v σ).2 o' name' = lookup_attr σ o' name'.
Proof.
  intros Hne. destruct (setattr o name v σ) as [[[]|e] σ'] eqn:E; cbn.
  - by apply (lookup_attr_setattr_ne _ _ _ _ _ _ _ E).
  - by rewrite (setattr_raises_heap _ _ _ _ _ _ E).
Qed.





End Flags.

(** ** Heaps that differ at most in the cancel flag *)

Section Blind.

Import Events.

Implicit Types (reg : registry) (n : pystr) (a o v : value) (σ : heap).
Implicit Types (name : string) (l i : loc) (subs : list callback).











End Blind.

(** ** [trigger]: naming the event and calling the subscribers *)

Section Trigger.

Import Events.

Implicit Types (reg : registry) (n : pystr) (a : value) (σ : heap).
Implicit Types (t : list call) (c : call) (subs : list callback).

Lemma run_eta {A B C : Type} (x : A * B * C) (r : A) :
  x.1.1 = r -> x = (r, x.1.2, x.2).
Proof. destruct x as [[x1 x2] x3]. by intros <-. Qed.

Lemma step_eta {A B : Type} (x : A * B) (r : A) : x.1 = r -> x = (r, x.2).
Proof. destruct x as [x1 x2]. by intros <-. Qed.













(** [test_trigger_event_canceled]: one subscriber that sets
    [args.cancel = True]; afterwards [cargs.event_name] is the event
    name and [cargs.cancel] is true. *)
Example test_trigger_event_canceled :
  let x := Scenario.run [Scenario.h_cancel] in
  x.1.1 = Ok tt
  /\ map cb_id (map callee x.2) = [1%N]
  /\ lookup_attr x.1.2 Scenario.cargs "_event_name" = Some (VStr (lit "save"))
  /\ lookup_attr x.1.2 Scenario.cargs "cancel" = Some (VBool true).
Proof. vm_compute. by repeat split. Qed.









End Trigger.

(** ** Failing subscribers, empty subscriber lists, repeated registration *)

Section Registry.

Import Events.

Implicit Types (reg : registry) (n : pystr) (a : value) (σ : heap).
Implicit Types (t : list call) (c cb h : callback).

Lemma dispatch_ok_callees subs a σ σ' t :
  dispatch subs a σ = (Ok tt, σ', t) -> map callee t = subs.
Proof.
  intros H. destruct (dispatch_trace _ _ _ _ _ _ H) as (_ & _ & _ & _ & Hall).
  by apply (Hall tt).
Qed.

(** C4.  Let the subscribers of [n] be [pre ++ h :: post], let the
    subscribers of [pre] return normally, and let [h], called next with
    [(a.source, a)], raise [e].  Then [trigger(n, a)] ends by raising
    that same [e], in the heap [h] left, and the invocations it made
    are those of [pre] followed by the one of [h]: no subscriber of
    [post] is called. *)
Theorem C4_subscriber_exception_propagates
    reg n a σ pre h post σ1 σ2 tp src e σ3 :
  subscribers reg n = pre ++ h :: post ->
  EventArgs.event_name_setter a (VStr n) σ = (Ok tt, σ1) ->
  dispatch pre a σ1 = (Ok tt, σ2, tp) ->
  EventArgs.source a σ2 = (Ok src, σ2) ->
  cb_run h src a σ2 = (Raise e, σ3) ->
  trigger reg n a σ = (Raise e, σ3, tp ++ [Call h src a σ2])
  /\ map callee (tp ++ [Call h src a σ2]) = pre ++ [h]
  /\ length (tp ++ [Call h src a σ2]) = S (length pre).
Proof.
  intros Hsubs Hset Hpre Hsrc Hrun.
  pose proof (dispatch_ok_callees _ _ _ _ _ Hpre) as Hcallees.
  split; [|split].
  - unfold trigger. rewrite Hset, Hsubs, dispatch_app, Hpre.
    cbn [dispatch]. by rewrite Hsrc, Hrun.
  - by rewrite map_app, Hcallees.
  - by rewrite length_app, <- Hcallees, length_map, Nat.add_1_r.
Qed.

Lemma C4_subscriber_exception_propagates_witness :
  let hs := [Scenario.h_cancel; Scenario.h_raise; Scenario.h_pass] in
  let σ1 := (EventArgs.event_name_setter Scenario.cargs (VStr (lit "save"))
               Scenario.heap0).2 in
  let d := dispatch [Scenario.h_cancel] Scenario.cargs σ1 in
  let e := Exn "ValueError" [VStr (lit "boom")] in
  Scenario.run hs
  = (Raise e, d.1.2, d.2 ++ [Call Scenario.h_raise (VInt 7) Scenario.cargs d.1.2])
  /\ map callee (d.2 ++ [Call Scenario.h_raise (VInt 7) Scenario.cargs d.1.2])
     = [Scenario.h_cancel] ++ [Scenario.h_raise]
  /\ length (d.2 ++ [Call Scenario.h_raise (VInt 7) Scenario.cargs d.1.2]) = 2%nat.
Proof.
  intros hs σ1 d e.
  apply (C4_subscriber_exception_propagates
           (Scenario.registered hs) (lit "save") Scenario.cargs Scenario.heap0
           [Scenario.h_cancel] Scenario.h_raise [Scenario.h_pass]
           σ1 d.1.2 d.2 (VInt 7) e d.1.2).
  - reflexivity.
  - apply step_eta. vm_compute. reflexivity.
  - apply run_eta. vm_compute. reflexivity.
  - apply getattr_lookup. vm_compute. reflexivity.
  - reflexivity.
Defined.

(** C8.  When no subscriber is registered for [n] and [a] is an
    object, [trigger(n, a)] returns normally, calls nothing, and leaves
    [a.event_name] reading [n]; no other attribute of any object is
    touched. *)
Theorem C8_trigger_without_subscribers reg n l ob σ :
  subscribers reg n = [] ->
  σ !! l = Some ob ->
  exists σ',
    trigger reg n (VRef l) σ = (Ok tt, σ', [])
    /\ named n (VRef l) σ'
    /\ (forall o name, name <> "_event_name" ->
          lookup_attr σ' o name = lookup_attr σ o name).
Proof.
  intros Hsubs Hl.
  pose proof (setattr_ok σ l ob "_event_name" (VStr n) Hl) as Hset.
  eexists. split; [|split].
  - unfold trigger, EventArgs.event_name_setter. rewrite Hset, Hsubs. reflexivity.
  - by apply (named_after_setter _ _ σ).
  - intros o name Hne.
    apply (lookup_attr_setattr_ne _ _ _ _ _ _ _ Hset). congruence.
Qed.

Lemma C8_trigger_without_subscribers_witness :
  exists σ',
    trigger ∅ (lit "save") (VRef 1%positive) Scenario.heap0 = (Ok tt, σ', [])
    /\ named (lit "save") (VRef 1%positive) σ'
    /\ (forall o name, name <> "_event_name" ->
          lookup_attr σ' o name = lookup_attr Scenario.heap0 o name).
Proof.
  apply (C8_trigger_without_subscribers ∅ (lit "save") 1%positive
           (Obj "CancelEventArgs"
              (<["cancel" := VBool false]>
                 (<["_event_name" := VStr (lit "")]>
                    {["_source" := VInt 7]})))).
  - reflexivity.
  - vm_compute. reflexivity.
Defined.


Lemma subscribers_on_other n n' cb reg :
  n <> n' -> subscribers (on n cb reg) n' = subscribers reg n'.
Proof. intros Hne. unfold on, subscribers. by rewrite lookup_insert_ne. Qed.








End Registry.

(** ** [CancelEventError]: the message and its [str()] *)

Section CancelEventErrorProperties.

Variable isprintable : N -> bool.
Variable object_str : loc -> M pystr.
Variable object_repr : loc -> M pystr.

Implicit Types (σ : heap) (ea m : value) (n : pystr) (args : list value).

(** [repr] of a string with a single quote and no double quote: the
    string between double quotes, as long as nothing in it needs an
    escape. *)
Example repr_str_single_quote :
  Builtins.repr_str isprintable (lit "Event 'save' is canceled!")
  = [34%N] ++ lit "Event 'save' is canceled!" ++ [34%N].
Proof. reflexivity. Qed.

(** [repr] of a string with both quotes, a newline, a control
    character and a backslash: ['a\'b\n\x01\\'] around a double quote. *)
Example repr_str_escapes :
  Builtins.repr_str isprintable [97; 39; 34; 98; 10; 1; 92]%N
  = lit "'a\'" ++ [34%N] ++ lit "b\n\x01\\'".
Proof. reflexivity. Qed.

Lemma explicit_message ea m args σ :
  m <> VNone ->
  CancelEventError.__init__ isprintable object_str object_repr ea m args σ
  = (Ok (Exn "CancelEventError" (ea :: m :: args)), σ).
Proof. intros Hm. by destruct m. Qed.

Lemma default_message ea v s args σ σ1 :
  EventArgs.event_name ea σ = (Ok v, σ) ->
  Builtins.format isprintable object_str object_repr v σ = (Ok s, σ1) ->
  CancelEventError.__init__ isprintable object_str object_repr ea VNone args σ
  = (Ok (Exn "CancelEventError"
           (ea :: VStr (lit "Event '" ++ s ++ lit "' is canceled!") :: args)), σ1).
Proof.
  intros Hn Hs. unfold CancelEventError.__init__, bind. by rewrite Hn, Hs.
Qed.

(** C10, amended.  Let [ea] be an args object whose [event_name] reads
    as [v], and let [s] be [v] as an f-string writes it ([v] itself when
    it is a string).  Then [CancelEventError(ea)] is built without
    error; its second argument is the string [Event '<s>' is canceled!]
    itself, and its [str()] is the [repr] of that string.  An explicit
    message other than [None] is stored unchanged as the second argument,
    and [str()] is then the [repr] of that message. *)
Theorem C10_CancelEventError_message ea v s args σ σ1 :
  EventArgs.event_name ea σ = (Ok v, σ) ->
  Builtins.format isprintable object_str object_repr v σ = (Ok s, σ1) ->
  (forall n, v = VStr n -> s = n /\ σ1 = σ)
  /\ exists e,
      CancelEventError.__init__ isprintable object_str object_repr ea VNone args σ
      = (Ok e, σ1)
      /\ exn_args e !! 0%nat = Some ea
      /\ exn_args e !! 1%nat
         = Some (VStr (lit "Event '" ++ s ++ lit "' is canceled!"))
      /\ CancelEventError.__str__ isprintable object_repr e σ1
         = (Ok (Builtins.repr_str isprintable
                  (lit "Event '" ++ s ++ lit "' is canceled!")), σ1)
      /\ (forall m, m <> VNone ->
          exists e',
            CancelEventError.__init__ isprintable object_str object_repr
              ea m args σ = (Ok e', σ)
            /\ exn_args e' !! 1%nat = Some m
            /\ CancelEventError.__str__ isprintable object_repr e' σ
               = Builtins.repr isprintable object_repr m σ).
Proof.
  intros Hn Hs. split.
  { intros n ->. cbn in Hs. unfold ret in Hs. by injection Hs as <- <-. }
  eexists. split; [by apply (default_message _ v)|].
  split; [done|]. split; [done|]. split; [done|].
  intros m Hm. eexists. split; [by apply explicit_message|]. by split.
Qed.

End CancelEventErrorProperties.

Lemma C10_CancelEventError_message_witness :
  exists e,
    CancelEventError.__init__ Scenario.ascii_only Scenario.object_text Scenario.object_text
      Scenario.cargs VNone [] Scenario.heap1 = (Ok e, Scenario.heap1)
    /\ exn_args e !! 1%nat = Some (VStr (lit "Event 'save' is canceled!"))
    /\ CancelEventError.__str__ Scenario.ascii_only Scenario.object_text e Scenario.heap1
       = (Ok ([34%N] ++ lit "Event 'save' is canceled!" ++ [34%N]), Scenario.heap1).
Proof.
  destruct (C10_CancelEventError_message Scenario.ascii_only Scenario.object_text
              Scenario.object_text Scenario.cargs (VStr (lit "save")) (lit "save") []
              Scenario.heap1 Scenario.heap1)
    as (_ & e & Hinit & _ & Hmsg & Hstr & _).
  { apply getattr_lookup. vm_compute. reflexivity. }
  { reflexivity. }
  exists e. split; [exact Hinit|]. split; [exact Hmsg|]. exact Hstr.
Defined.

(** C10, as stated, fails: the second argument of
    [CancelEventError(ea)] is the message itself, not its [repr].  For
    [ea.event_name == "save"] it is [Event 'save' is canceled!], whereas
    the [repr] of that string, which is what [str()] gives, has a double
    quote on either side. *)
Lemma C10_second_argument_is_not_a_repr :
  exists e,
    CancelEventError.__init__ Scenario.ascii_only Scenario.object_text Scenario.object_text
      Scenario.cargs VNone [] Scenario.heap1 = (Ok e, Scenario.heap1)
    /\ exn_args e !! 1%nat = Some (VStr (lit "Event 'save' is canceled!"))
    /\ (CancelEventError.__str__ Scenario.ascii_only Scenario.object_text e Scenario.heap1).1
       = Ok ([34%N] ++ lit "Event 'save' is canceled!" ++ [34%N])
    /\ exn_args e !! 1%nat
       <> Some (VStr (Builtins.repr_str Scenario.ascii_only
                        (lit "Event 'save' is canceled!"))).
Proof.
  eexists. split.
  { apply (default_message _ _ _ _ (VStr (lit "save")) (lit "save")); [|reflexivity].
    apply getattr_lookup. vm_compute. reflexivity. }
  split; [reflexivity|]. split; [reflexivity|].
  vm_compute. discriminate.
Qed.

(** * Further properties of the sources *)

(** ** [str.index] *)

Section Find.

Implicit Types (sub s p x rest : pystr) (c : N).

Lemma starts_with_prefix sub s :
  PyStr.starts_with sub s = true <-> sub `prefix_of` s.
Proof.
  revert s. induction sub as [|a sub IH]; intros s.
  - split; [intros _; apply prefix_nil | done].
  - destruct s as [|b s]; cbn.
    + split; [done | intros H; by apply prefix_nil_inv in H].
    + rewrite andb_true_iff, N.eqb_eq, IH. split.
      * intros [-> H]. by apply prefix_cons.
      * intros H. split; [by apply prefix_cons_inv_1 in H
                         | by apply prefix_cons_inv_2 in H].
Qed.

(** A string in which [c] does not occur starts [x ++ c :: rest] only
    if it starts [x]. *)
Lemma starts_with_without c sub x rest :
  c ∉ sub ->
  PyStr.starts_with sub (x ++ c :: rest) = PyStr.starts_with sub x.
Proof.
  revert x. induction sub as [|a sub IH]; intros x Hc; [done|].
  apply not_elem_of_cons in Hc as [Hca Hc].
  destruct x as [|b x]; cbn.
  - destruct (N.eqb_spec a c); [congruence | done].
  - by rewrite IH.
Qed.

Lemma find_length sub s i : PyStr.find sub s = Some i -> (i <= length s)%nat.
Proof.
  revert i. induction s as [|b s IH]; intros i; cbn [PyStr.find].
  - destruct (PyStr.starts_with sub []); [|done]. intros [= <-]. cbn. lia.
  - destruct (PyStr.starts_with sub (b :: s)); [intros [= <-]; cbn; lia|].
    destruct (PyStr.find sub s) as [j|]; [|done].
    intros [= <-]. specialize (IH j eq_refl). cbn. lia.
Qed.

(** Where [find] stops, [sub] occurs. *)
Lemma find_occurs sub s i :
  PyStr.find sub s = Some i -> s = take i s ++ sub ++ drop (i + length sub) s.
Proof.
  revert i. induction s as [|b s IH]; intros i; cbn [PyStr.find].
  - destruct (PyStr.starts_with sub []) eqn:E; [|done]. intros [= <-].
    apply starts_with_prefix, prefix_nil_inv in E. by subst.
  - destruct (PyStr.starts_with sub (b :: s)) eqn:E.
    + intros [= <-]. apply starts_with_prefix in E as [r ->].
      change (0 + length sub)%nat with (length sub).
      by rewrite drop_app_length.
    + destruct (PyStr.find sub s) as [j|]; [|done].
      intros [= <-]. cbn. f_equal. by apply IH.
Qed.

(** A prefix without the first character of [sub] is skipped. *)
Lemma find_skip c sub p s :
  c ∉ p ->
  PyStr.find (c :: sub) (p ++ s)
  = (fun i => (length p + i)%nat) <$> PyStr.find (c :: sub) s.
Proof.
  induction p as [|a p IH]; intros Hc.
  - cbn. by destruct (PyStr.find (c :: sub) s).
  - apply not_elem_of_cons in Hc as [Hca Hc].
    cbn [app PyStr.find PyStr.starts_with].
    destruct (N.eqb_spec c a); [congruence|]. cbn.
    rewrite (IH Hc). by destruct (PyStr.find (c :: sub) s).
Qed.

(** When the first character of [sub] occurs nowhere else in [sub], the
    first occurrence of [sub] in [x ++ sub ++ rest] is the first one in
    [x], or the one that follows [x]. *)
Lemma find_app_first c sub x rest :
  c ∉ sub ->
  PyStr.find (c :: sub) (x ++ (c :: sub) ++ rest)
  = Some (default (length x) (PyStr.find (c :: sub) x)).
Proof.
  intros Hc. induction x as [|a x IH].
  - cbn. rewrite N.eqb_refl. cbn.
    by rewrite (proj2 (starts_with_prefix sub (sub ++ rest)) (prefix_app_r _ _ _ (reflexivity _))).
  - cbn [app] in IH. cbn [app PyStr.find PyStr.starts_with length].
    rewrite starts_with_without by done.
    destruct ((c =? a)%N && PyStr.starts_with sub x); [done|].
    rewrite IH. by destruct (PyStr.find (c :: sub) x).
Qed.

End Find.

(** ** [Lo.make_uno_cmd] and [Lo.extract_item_name] *)

Section UnoCmd.

Implicit Types (name cmd r : pystr).

Lemma find_Foo_make name :
  PyStr.find (lit "Foo.") (Lo.make_uno_cmd name) = Some 24%nat.
Proof. reflexivity. Qed.

Lemma find_language_make name :
  PyStr.find (lit "?language") (Lo.make_uno_cmd name)
  = Some (28 + default (length name) (PyStr.find (lit "?language") name))%nat.
Proof.
  unfold Lo.make_uno_cmd.
  change (lit "?language") with (63%N :: lit "language").
  rewrite find_skip by (apply (bool_decide_unpack _); vm_compute; exact I).
  change (lit "?language=Java&location=share")
    with ((63%N :: lit "language") ++ lit "=Java&location=share").
  rewrite find_app_first by (apply (bool_decide_unpack _); vm_compute; exact I).
  reflexivity.
Qed.

(** X1.  [extract_item_name(make_uno_cmd(name))] never raises and
    returns [name] up to its first [?language]: the whole of [name]
    when [?language] does not occur in it, and only then. *)
Theorem X1_extract_item_name_of_make_uno_cmd name :
  Lo.extract_item_name (Lo.make_uno_cmd name)
  = Ok (match PyStr.find (lit "?language") name with
        | Some i => take i name
        | None => name
        end)
  /\ (Lo.extract_item_name (Lo.make_uno_cmd name) = Ok name
      <-> PyStr.find (lit "?language") name = None).
Proof.
  assert (H : Lo.extract_item_name (Lo.make_uno_cmd name)
              = Ok (match PyStr.find (lit "?language") name with
                    | Some i => take i name
                    | None => name
                    end)).
  { unfold Lo.extract_item_name, PyStr.index.
    rewrite find_Foo_make, find_language_make. f_equal.
    unfold PyStr.slice, Lo.make_uno_cmd.
    rewrite (drop_app_length' (lit "vnd.sun.star.script:Foo/Foo.")) by reflexivity.
    replace (28 + default (length name) (PyStr.find (lit "?language") name)
             - (24 + 4))%nat
      with (default (length name) (PyStr.find (lit "?language") name)) by lia.
    destruct (PyStr.find (lit "?language") name) as [i|] eqn:E; cbn [default].
    - apply take_app_le. by apply (find_length (lit "?language")).
    - apply take_app_length. }
  split; [exact H|]. rewrite H.
  destruct (PyStr.find (lit "?language") name) as [i|] eqn:E; [|done].
  split; [|done]. intros [= Ht]. exfalso.
  pose proof (find_length _ _ _ E) as Hi.
  pose proof (find_occurs _ _ _ E) as Ho.
  apply (f_equal length) in Ho. rewrite Ht in Ho.
  rewrite !length_app in Ho. cbn in Ho. lia.
Qed.

(** X2.  When [extract_item_name(cmd)] returns [r], both headers occur
    in [cmd], the first [Foo.] at [i] and the first [?language] at [j];
    either [?language] starts before the end of that [Foo.] and [r] is
    the empty string, or [cmd] reads: what precedes [Foo.], then [Foo.],
    then [r], then [?language] and the rest. *)
Theorem X2_extract_item_name_decomposes cmd r :
  Lo.extract_item_name cmd = Ok r ->
  exists i j : nat,
    PyStr.find (lit "Foo.") cmd = Some i
    /\ PyStr.find (lit "?language") cmd = Some j
    /\ ((j <= i + 4 /\ r = [])%nat
        \/ ((i + 4 <= j)%nat
            /\ cmd = take i cmd ++ lit "Foo." ++ r ++ lit "?language"
                       ++ drop (j + 9) cmd)).
Proof.
  unfold Lo.extract_item_name, PyStr.index.
  destruct (PyStr.find (lit "Foo.") cmd) as [i|] eqn:Ei; [|done].
  destruct (PyStr.find (lit "?language") cmd) as [j|] eqn:Ej; [|done].
  intros [= <-]. exists i, j. split; [done|]. split; [done|].
  unfold PyStr.slice.
  destruct (le_lt_dec (i + 4) j) as [Hle|Hlt].
  - right. split; [done|].
    pose proof (find_length _ _ _ Ej) as Hj.
    pose proof (find_occurs _ _ _ Ei) as Hi.
    pose proof (find_occurs _ _ _ Ej) as Hjo.
    change (length (lit "Foo.")) with 4%nat in Hi.
    change (length (lit "?language")) with 9%nat in Hjo.
    assert (Hpre : take (i + 4) cmd = take i cmd ++ lit "Foo.").
    { rewrite Hi at 1. rewrite app_assoc.
      apply take_app_length'. rewrite length_app, length_take. cbn. lia. }
    rewrite Hjo at 1.
    replace j with ((i + 4) + (j - (i + 4)))%nat at 1 by lia.
    rewrite <- take_take_drop, Hpre. by rewrite <- !app_assoc.
  - left. split; [lia|]. replace (j - (i + 4))%nat with 0%nat by lia. done.
Qed.

Lemma X2_extract_item_name_decomposes_witness :
  exists i j : nat,
    PyStr.find (lit "Foo.") (lit "x?languageFoo.Save?language") = Some i
    /\ PyStr.find (lit "?language") (lit "x?languageFoo.Save?language") = Some j
    /\ ((j <= i + 4 /\ [] = @nil N)%nat
        \/ ((i + 4 <= j)%nat
            /\ lit "x?languageFoo.Save?language"
               = take i (lit "x?languageFoo.Save?language") ++ lit "Foo." ++ []
                   ++ lit "?language"
                   ++ drop (j + 9) (lit "x?languageFoo.Save?language"))).
Proof.
  apply (X2_extract_item_name_decomposes (lit "x?languageFoo.Save?language") []).
  vm_compute. reflexivity.
Defined.

End UnoCmd.

(** ** [GUI.get_menu_max_id] and [GUI.hide_except] *)

Section Gui.

Implicit Types (ids : list Z) (ui show hidden : list pystr) (n : pystr).

Lemma scan_ids_spec ids (m : Z) :
  (m <= GUI.scan_ids ids m)%Z
  /\ (forall id, id ∈ ids -> (id <= GUI.scan_ids ids m)%Z)
  /\ (GUI.scan_ids ids m = m \/ GUI.scan_ids ids m ∈ ids).
Proof.
  revert m. induction ids as [|id ids IH]; intros m; cbn [GUI.scan_ids].
  - split; [lia|]. split; [|by left]. intros id H. by apply elem_of_nil in H.
  - destruct (IH (if (id >? m)%Z then id else m)) as (Hm & Hall & Hin).
    destruct (Z.gtb_spec id m) as [Hgt|Hle].
    + split; [lia|]. split.
      * intros x [->|Hx]%elem_of_cons; [done | by apply Hall].
      * right. destruct Hin as [->|Hin]; [apply list_elem_of_here|].
        by apply list_elem_of_further.
    + split; [done|]. split.
      * intros x [->|Hx]%elem_of_cons; [lia | by apply Hall].
      * destruct Hin as [->|Hin]; [by left|]. right.
        by apply list_elem_of_further.
Qed.

(** X3.  [get_menu_max_id] returns [-1] for no menu bar; for a menu
    bar it returns a bound of all item ids that is one of these ids, or
    [-1] when no id is above [-1] (an empty bar, or ids that are all
    below zero). *)
Theorem X3_get_menu_max_id_is_the_maximum (bar : option (list Z)) :
  GUI.get_menu_max_id None = (-1)%Z
  /\ (-1 <= GUI.get_menu_max_id bar)%Z
  /\ forall ids, bar = Some ids ->
       (forall id, id ∈ ids -> (id <= GUI.get_menu_max_id bar)%Z)
       /\ (GUI.get_menu_max_id bar = (-1)%Z \/ GUI.get_menu_max_id bar ∈ ids)
       /\ (GUI.get_menu_max_id bar = (-1)%Z
           <-> forall id, id ∈ ids -> (id <= -1)%Z).
Proof.
  split; [done|]. split.
  - destruct bar as [ids|]; cbn; [|lia].
    by destruct (scan_ids_spec ids (-1)) as [H _].
  - intros ids ->. cbn.
    destruct (scan_ids_spec ids (-1)) as (Hm & Hall & Hin).
    split; [done|]. split; [done|]. split.
    + intros Hr id Hid. rewrite <- Hr. by apply Hall.
    + intros Hneg. destruct Hin as [?|Hin]; [done|].
      specialize (Hneg _ Hin). lia.
Qed.

Lemma remove_match_None n show :
  GUI.remove_match n show = None <-> n ∉ show.
Proof.
  induction show as [|el show IH]; cbn.
  - split; [intros _; apply not_elem_of_nil | done].
  - rewrite not_elem_of_cons. case_bool_decide as E.
    + split; [done | intros [? _]; congruence].
    + destruct (GUI.remove_match n show); cbn.
      * split; [done|]. intros [_ H]. by apply IH in H.
      * split; [|done]. intros _. split; [congruence | by apply IH].
Qed.

Lemma remove_match_Some n show show' :
  GUI.remove_match n show = Some show' ->
  exists l1 l2, show = l1 ++ n :: l2 /\ show' = l1 ++ l2 /\ n ∉ l1.
Proof.
  revert show'. induction show as [|el show IH]; intros show'; cbn; [done|].
  case_bool_decide as E.
  - intros [= <-]. subst. exists [], show.
    split; [done|]. split; [done|]. apply not_elem_of_nil.
  - destruct (GUI.remove_match n show) as [r|]; [|done].
    intros [= <-]. destruct (IH r eq_refl) as (l1 & l2 & -> & -> & Hn).
    exists (el :: l1), l2. split; [done|]. split; [done|].
    apply not_elem_of_cons. split; [congruence | done].
Qed.

(** X4.  Every element is either hidden or uses up one entry of
    [show_elms] with its name: the elements are, up to order, the hidden
    ones and some [matched] ones, and [show_elms] was, up to order,
    [matched] and what the call leaves of it.  The hidden names come in
    the order of the elements, and what is left of [show_elms] keeps its
    order. *)
Theorem X4_hide_except_accounts_for_every_element ui show :
  exists matched,
    ui ≡ₚ (GUI.hide_except ui show).1 ++ matched
    /\ show ≡ₚ matched ++ (GUI.hide_except ui show).2
    /\ (GUI.hide_except ui show).1 `sublist_of` ui
    /\ (GUI.hide_except ui show).2 `sublist_of` show.
Proof.
  revert show. induction ui as [|n ui IH]; intros show.
  - exists []. by repeat split.
  - cbn [GUI.hide_except].
    destruct (GUI.remove_match n show) as [show1|] eqn:E.
    + apply remove_match_Some in E as (l1 & l2 & -> & -> & _).
      destruct (IH (l1 ++ l2)) as (matched & Hui & Hshow & Hsub1 & Hsub2).
      exists (n :: matched). split; [|split; [|split]].
      * rewrite <- Permutation_middle. by constructor.
      * rewrite <- Permutation_middle. cbn. by constructor.
      * by apply sublist_cons.
      * etrans; [exact Hsub2|].
        apply sublist_app; [done | by apply sublist_cons].
    + destruct (IH show) as (matched & Hui & Hshow & Hsub1 & Hsub2).
      destruct (GUI.hide_except ui show) as [hidden remaining].
      exists matched. split; [|split; [|split]]; cbn in *.
      * by constructor.
      * done.
      * by apply sublist_skip.
      * done.
Qed.

Lemma filter_not_elem_of_cons n ui (l : list pystr) :
  n ∉ l -> filter (fun x => x ∉ n :: ui) l = filter (fun x => x ∉ ui) l.
Proof.
  induction l as [|x l IH]; intros Hn; [done|].
  apply not_elem_of_cons in Hn as [Hnx Hn].
  rewrite !filter_cons, (IH Hn).
  destruct (decide (x ∉ ui)) as [Hx|Hx].
  - rewrite decide_True; [done|]. apply not_elem_of_cons. split; [congruence|done].
  - rewrite decide_False; [done|]. intros H. apply Hx.
    by apply not_elem_of_cons in H as [_ H].
Qed.

(** X5.  When [show_elms] has no name twice, what [hide_except] leaves
    of it are exactly its names that no element bears, in their order:
    the toolbars that are not in the layout manager yet. *)
Theorem X5_hide_except_leaves_the_missing ui show :
  NoDup show ->
  (GUI.hide_except ui show).2 = filter (fun n => n ∉ ui) show.
Proof.
  revert show. induction ui as [|n ui IH]; intros show Hnd.
  - cbn. symmetry. clear Hnd. induction show as [|x show IHs]; [done|].
    rewrite filter_cons_True by apply not_elem_of_nil. by rewrite IHs.
  - cbn [GUI.hide_except].
    destruct (GUI.remove_match n show) as [show1|] eqn:E.
    + apply remove_match_Some in E as (l1 & l2 & -> & -> & Hl1).
      apply NoDup_app in Hnd as (Hnd1 & Hdisj & Hnd2).
      apply NoDup_cons in Hnd2 as [Hl2 Hnd2].
      rewrite IH.
      2:{ apply NoDup_app. split; [done|]. split; [|done].
          intros x Hx Hx2. apply (Hdisj x Hx). by apply list_elem_of_further. }
      rewrite !filter_app.
      rewrite (filter_cons_False _ n) by (intros H; apply H, list_elem_of_here).
      by rewrite !filter_not_elem_of_cons.
    + destruct (GUI.hide_except ui show) as [hidden remaining] eqn:Eh.
      cbn. specialize (IH show Hnd). rewrite Eh in IH. cbn in IH. rewrite IH.
      apply remove_match_None in E. by rewrite filter_not_elem_of_cons.
Qed.

Lemma X5_hide_except_leaves_the_missing_witness :
  (GUI.hide_except [lit "menubar"; lit "statusbar"; lit "menubar"]
     [lit "findbar"; lit "menubar"; lit "zoombar"]).2
  = [lit "findbar"; lit "zoombar"].
Proof.
  rewrite X5_hide_except_leaves_the_missing; [reflexivity|].
  apply (bool_decide_unpack _). vm_compute. exact I.
Defined.

Lemma filter_not_elem_of_middle (l l1 l2 : list pystr) n :
  n ∉ l ->
  filter (fun x => x ∉ l1 ++ n :: l2) l = filter (fun x => x ∉ l1 ++ l2) l.
Proof.
  induction l as [|x l IH]; intros Hn; [done|].
  apply not_elem_of_cons in Hn as [Hnx Hn].
  rewrite !filter_cons, (IH Hn).
  assert (Hiff : x ∉ l1 ++ n :: l2 <-> x ∉ l1 ++ l2).
  { rewrite !elem_of_app, elem_of_cons. split; intros H; [tauto|].
    intros [?|[?|?]]; [tauto | congruence | tauto]. }
  destruct (decide (x ∉ l1 ++ l2)) as [Hx|Hx].
  - by rewrite decide_True by by apply Hiff.
  - rewrite decide_False; [done|]. intros H. by apply Hx, Hiff.
Qed.

(** X6.  When no two elements bear the same name, the elements
    [hide_except] hides are exactly those whose name is not in
    [show_elms], in their order. *)
Theorem X6_hide_except_hides_the_unlisted ui show :
  NoDup ui ->
  (GUI.hide_except ui show).1 = filter (fun n => n ∉ show) ui.
Proof.
  revert show. induction ui as [|n ui IH]; intros show Hnd; [done|].
  apply NoDup_cons in Hnd as [Hn Hnd].
  cbn [GUI.hide_except].
  destruct (GUI.remove_match n show) as [show1|] eqn:E.
  - apply remove_match_Some in E as (l1 & l2 & -> & -> & Hl1).
    rewrite (IH _ Hnd).
    rewrite filter_cons_False.
    2:{ intros H. apply H, elem_of_app. right. apply list_elem_of_here. }
    by rewrite filter_not_elem_of_middle.
  - apply remove_match_None in E.
    rewrite filter_cons_True by done. rewrite <- (IH show Hnd).
    by destruct (GUI.hide_except ui show) as [hidden remaining].
Qed.

Lemma X6_hide_except_hides_the_unlisted_witness :
  (GUI.hide_except [lit "menubar"; lit "statusbar"; lit "toolbar"]
     [lit "menubar"; lit "zoombar"]).1
  = [lit "statusbar"; lit "toolbar"].
Proof.
  rewrite X6_hide_except_hides_the_unlisted; [reflexivity|].
  apply (bool_decide_unpack _). vm_compute. exact I.
Defined.

End Gui.

(** ** [Lo]: document types and export formats *)

Section DocTypes.

Variable casefold : pystr -> pystr.
Variable lower : pystr -> pystr.

Local Ltac listed := apply (bool_decide_unpack _); vm_compute; exact I.

Local Ltac differ := let Hc := fresh in intros Hc; vm_compute in Hc; discriminate Hc.

Local Ltac case_doc_type i :=
  match goal with |- context [(i =? ?k)%Z] => destruct (Z.eqb_spec i k) end.

(** X7.  [ext_to_doc_type] always answers with one of the six document
    type names, never with ["unknown"]; it prints nothing exactly when
    the case-folded extension is one of [odt], [odp], [odg], [ods],
    [odb], [odf], and otherwise answers [swriter] and prints a line. *)
Theorem X7_ext_to_doc_type_is_a_document_type (ext : pystr) :
  (Lo.ext_to_doc_type casefold ext).1
    ∈ [Lo.WRITER_STR; Lo.IMPRESS_STR; Lo.DRAW_STR; Lo.CALC_STR;
       Lo.BASE_STR; Lo.MATH_STR]
  /\ (Lo.ext_to_doc_type casefold ext).1 <> Lo.UNKNOWN_STR
  /\ ((Lo.ext_to_doc_type casefold ext).2 = []
      <-> casefold ext
            ∈ [lit "odt"; lit "odp"; lit "odg"; lit "ods"; lit "odb"; lit "odf"])
  /\ ((Lo.ext_to_doc_type casefold ext).2 <> [] ->
      (Lo.ext_to_doc_type casefold ext).1 = Lo.WRITER_STR).
Proof.
  unfold Lo.ext_to_doc_type.
  repeat case_bool_decide; cbn [fst snd].
  all: split; [listed|]; split; [done|]; split; [|done].
  all: try (split; [intros _|done];
            match goal with E : casefold _ = _ |- _ => rewrite E end; listed).
  - split; [done|]. intros Hin. exfalso.
    match goal with E : casefold _ = _ |- _ => rewrite E in Hin end.
    revert Hin. listed.
  - split; [done|]. intros Hin. exfalso.
    repeat (apply elem_of_cons in Hin as [Hin|Hin]; [congruence|]).
    by apply elem_of_nil in Hin.
Qed.

(** X8.  [doc_type_str] never answers ["unknown"], not even for
    [Lo.UNKNOWN]; on the six document types [1..6] it is one-to-one, and
    every other number gives [swriter] and a printed line. *)
Theorem X8_doc_type_str_names_the_six_types (i j : Z) :
  (Lo.doc_type_str i).1 <> Lo.UNKNOWN_STR
  /\ ((1 <= i <= 6)%Z -> (1 <= j <= 6)%Z ->
      (Lo.doc_type_str i).1 = (Lo.doc_type_str j).1 -> i = j)
  /\ (~ (1 <= i <= 6)%Z ->
      (Lo.doc_type_str i).1 = Lo.WRITER_STR /\ (Lo.doc_type_str i).2 <> []).
Proof.
  unfold Lo.doc_type_str, Lo.WRITER, Lo.IMPRESS, Lo.DRAW, Lo.CALC, Lo.BASE, Lo.MATH.
  split; [|split].
  - repeat (case_doc_type i; [cbn [fst]; differ|]). cbn [fst]. differ.
  - intros Hi Hj.
    assert (Hi' : (i = 1 \/ i = 2 \/ i = 3 \/ i = 4 \/ i = 5 \/ i = 6)%Z) by lia.
    assert (Hj' : (j = 1 \/ j = 2 \/ j = 3 \/ j = 4 \/ j = 5 \/ j = 6)%Z) by lia.
    destruct Hi' as [Hi'|[Hi'|[Hi'|[Hi'|[Hi'|Hi']]]]];
      destruct Hj' as [Hj'|[Hj'|[Hj'|[Hj'|[Hj'|Hj']]]]]; subst i j;
      try reflexivity; vm_compute; discriminate.
  - intros Hi. repeat (case_doc_type i; [lia|]). by split.
Qed.

(** X9.  Unless the lower-cased extension is one of [rtf], [pdf],
    [jpg], [png], [htm], [html], [xhtml], [xml], the format
    [ext_to_format] gives, and what it prints, do not depend on the
    document type. *)
Theorem X9_ext_to_format_ignores_doc_type (ext : pystr) (i j : Z) :
  lower ext ∉ [lit "rtf"; lit "pdf"; lit "jpg"; lit "png"; lit "htm"; lit "html";
               lit "xhtml"; lit "xml"] ->
  Lo.ext_to_format lower ext i = Lo.ext_to_format lower ext j.
Proof.
  intros Hn. unfold Lo.ext_to_format.
  repeat (let E := fresh "E" in
          case_bool_decide as E;
          [first [exfalso; apply Hn; rewrite E; listed | reflexivity]|]).
  reflexivity.
Qed.

End DocTypes.

Lemma X8_doc_type_str_names_the_six_types_witness :
  Lo.CALC = 3%Z
  /\ (Lo.doc_type_str 7).1 = Lo.WRITER_STR /\ (Lo.doc_type_str 7).2 <> [].
Proof.
  destruct (X8_doc_type_str_names_the_six_types Lo.CALC 3) as (_ & Hinj & _).
  destruct (X8_doc_type_str_names_the_six_types 7 7) as (_ & _ & Hout).
  split; [apply Hinj; [unfold Lo.CALC; lia | lia | reflexivity] | apply Hout; lia].
Defined.

Lemma X9_ext_to_format_ignores_doc_type_witness :
  Lo.ext_to_format Scenario.ascii_lower (lit "ODS") Lo.CALC
  = Lo.ext_to_format Scenario.ascii_lower (lit "ODS") Lo.UNKNOWN.
Proof.
  apply X9_ext_to_format_ignores_doc_type.
  apply (bool_decide_unpack _). vm_compute. exact I.
Defined.

(** ** [Lo.close_office] *)

Section CloseOffice.

Import Lo.

Variable terminate : nat -> terminate_result.

Implicit Types (st : office) (n : Z).

Lemma close_office_loop_clause n st
    (x : {b : bool | negb (is_office_terminated st) && (n <? 4)%Z = b}) :
  close_office_loop_unfold_clause_1 terminate n st x
  = if proj1_sig x
    then let '(is_dead, st1) := try_to_terminate terminate n st in
         close_office_loop terminate (n + 1)
           (Office (_doc st1) (xdesktop st1) is_dead (calls st1) (out st1))
    else st.
Proof. destruct x as [[] e]; reflexivity. Qed.

(** The loop, as the [while] statement reads. *)
Lemma close_office_loop_unfold n st :
  close_office_loop terminate n st
  = if negb (is_office_terminated st) && (n <? 4)%Z
    then let '(is_dead, st1) := try_to_terminate terminate n st in
         close_office_loop terminate (n + 1)
           (Office (_doc st1) (xdesktop st1) is_dead (calls st1) (out st1))
    else st.
Proof. by rewrite close_office_loop_equation_1, close_office_loop_clause. Qed.

Lemma close_office_loop_done n st :
  is_office_terminated st = true -> close_office_loop terminate n st = st.
Proof. intros H. rewrite close_office_loop_unfold. by rewrite H. Qed.

Local Ltac attempt c :=
  unfold try_to_terminate;
  cbn [calls _doc xdesktop is_office_terminated out];
  destruct (terminate c) as [[]| |];
  cbn [succeeds print _doc xdesktop calls out is_office_terminated];
  try (rewrite close_office_loop_done by done; cbn; repeat split; lia).

Lemma close_office_loop_from_1 st :
  is_office_terminated st = false ->
  let ok k := succeeds (terminate (calls st + k)) in
  let st' := close_office_loop terminate 1 st in
  calls st' = (calls st + (if ok 0 then 1 else if ok 1 then 2 else 3))%nat
  /\ is_office_terminated st' = ok 0%nat || ok 1%nat || ok 2%nat
  /\ _doc st' = _doc st /\ xdesktop st' = xdesktop st.
Proof.
  destruct st as [d x t c o]. cbn [is_office_terminated calls _doc xdesktop].
  intros ->. cbn zeta.
  replace (c + 0)%nat with c by lia.
  replace (c + 1)%nat with (S c) by lia.
  replace (c + 2)%nat with (S (S c)) by lia.
  rewrite close_office_loop_unfold.
  cbn [is_office_terminated negb andb]. change (1 <? 4)%Z with true. cbn match.
  attempt c.
  all: rewrite close_office_loop_unfold;
    cbn [is_office_terminated negb andb]; change (1 + 1 <? 4)%Z with true;
    cbn match; attempt (S c).
  all: rewrite close_office_loop_unfold;
    cbn [is_office_terminated negb andb]; change (1 + 1 + 1 <? 4)%Z with true;
    cbn match; attempt (S (S c)).
  all: rewrite close_office_loop_unfold;
    cbn [is_office_terminated negb andb]; change (1 + 1 + 1 + 1 <? 4)%Z with false;
    cbn; repeat split; lia.
Qed.

Lemma close_office_attempts st :
  xdesktop st <> VNone ->
  is_office_terminated st = false ->
  let ok k := succeeds (terminate (calls st + k)) in
  let st' := close_office terminate st in
  calls st' = (calls st + (if ok 0 then 1 else if ok 1 then 2 else 3))%nat
  /\ is_office_terminated st' = ok 0%nat || ok 1%nat || ok 2%nat
  /\ _doc st' = VNone
  /\ xdesktop st' = xdesktop st.
Proof.
  intros Hx Ht ok st'. subst ok st'. unfold close_office.
  cbn [print xdesktop is_office_terminated calls out _doc].
  rewrite Ht.
  set (st0 := Office VNone (xdesktop st) false (calls st)
                (out st ++ [lit "Closing Office"])).
  pose proof (close_office_loop_from_1 st0 eq_refl) as H. cbn zeta in H.
  destruct (xdesktop st) eqn:Ex; [done|exact H..].
Qed.

Lemma close_office_noop st :
  xdesktop st = VNone \/ is_office_terminated st = true ->
  calls (close_office terminate st) = calls st
  /\ is_office_terminated (close_office terminate st) = is_office_terminated st
  /\ _doc (close_office terminate st) = VNone
  /\ xdesktop (close_office terminate st) = xdesktop st.
Proof.
  intros Hs. unfold close_office.
  cbn [print xdesktop is_office_terminated calls out _doc].
  destruct (xdesktop st) eqn:Ex; [done|..];
    (destruct Hs as [Hs|Hs]; [done|]); rewrite Hs; done.
Qed.

(** X10.  With a desktop and no termination requested yet,
    [close_office] calls [xdesktop.terminate()] until a call succeeds
    (it answers true, or the link is disposed), three times at most: one
    call if the first succeeds, two if the second does, three otherwise.
    Afterwards [is_office_terminated] tells whether one of them
    succeeded, and [_doc] is [None]. *)
Theorem X10_close_office_tries_three_times st :
  xdesktop st <> VNone ->
  is_office_terminated st = false ->
  let ok k := succeeds (terminate (calls st + k)) in
  let st' := close_office terminate st in
  calls st' = (calls st + (if ok 0 then 1 else if ok 1 then 2 else 3))%nat
  /\ is_office_terminated st' = ok 0%nat || ok 1%nat || ok 2%nat
  /\ _doc st' = VNone
  /\ xdesktop st' = xdesktop st.
Proof. apply close_office_attempts. Qed.

(** X11.  [close_office] always clears [_doc] and keeps the desktop;
    it makes no call of [xdesktop.terminate()] when there is no desktop
    or when termination was already requested, and then leaves
    [is_office_terminated] as it was; it never makes more than three
    calls.  So a second [close_office] after one that succeeded calls
    nothing. *)
Theorem X11_close_office_calls_nothing_when_done st :
  let st' := close_office terminate st in
  _doc st' = VNone
  /\ xdesktop st' = xdesktop st
  /\ (calls st <= calls st' <= calls st + 3)%nat
  /\ (xdesktop st = VNone \/ is_office_terminated st = true ->
      calls st' = calls st
      /\ is_office_terminated st' = is_office_terminated st)
  /\ (is_office_terminated st' = true ->
      calls (close_office terminate st') = calls st').
Proof.
  cbn zeta.
  assert (Hcases : (xdesktop st = VNone \/ is_office_terminated st = true)
                   \/ (xdesktop st <> VNone /\ is_office_terminated st = false)).
  { destruct (is_office_terminated st); [left; by right|].
    destruct (xdesktop st); [left; by left|right; by split..]. }
  destruct Hcases as [Hs|[Hx Ht]].
  - destruct (close_office_noop st Hs) as (Hc & Ht & Hd & Hx).
    split; [done|]. split; [done|]. split; [lia|]. split; [done|].
    intros Ht'. by apply close_office_noop; right.
  - destruct (close_office_attempts st Hx Ht) as (Hc & _ & Hd & Hx').
    split; [done|]. split; [done|]. split.
    { rewrite Hc. repeat case_match; lia. }
    split; [intros [?|?]; congruence|].
    intros Ht'. by apply close_office_noop; right.
Qed.

End CloseOffice.

Lemma X10_close_office_tries_three_times_witness :
  let st' := Lo.close_office Examples.stubborn Examples.connected in
  Lo.calls st' = 3%nat
  /\ Lo.is_office_terminated st' = true
  /\ Lo._doc st' = VNone
  /\ Lo.xdesktop st' = VRef 1%positive.
Proof.
  apply (X10_close_office_tries_three_times Examples.stubborn Examples.connected);
    [discriminate | reflexivity].
Defined.


(** ** [EventArgs]: the other properties and [__repr__] *)

Section EventArgsMore.

Variable isprintable : N -> bool.
Variable object_str : loc -> M pystr.
Variable object_repr : loc -> M pystr.

Implicit Types (σ : heap) (a o v src : value) (name : string).

Lemma getattr_fst σ o name :
  (getattr o name σ).1
  = match lookup_attr σ o name with
    | Some v => Ok v
    | None => Raise (AttributeError name)
    end.
Proof. unfold getattr. by destruct (lookup_attr σ o name). Qed.

Lemma event_data_fst σ o :
  (EventArgs.event_data o σ).1
  = Ok (default VNone (lookup_attr σ o "_event_data")).
Proof.
  unfold EventArgs.event_data, try_except, getattr.
  by destruct (lookup_attr σ o "_event_data").
Qed.

(** X12.  On a constructed [EventArgs], after [e.event_data = v] a
    read of [e.event_data] returns [v]; a [None] written explicitly
    reads like data that was never written. *)
Theorem X12_event_data_roundtrip src v σ :
  exists a σ1 σ2,
    EventArgs.new src σ = (Ok a, σ1)
    /\ EventArgs.event_data_setter a v σ1 = (Ok tt, σ2)
    /\ EventArgs.event_data a σ2 = (Ok v, σ2)
    /\ (v = VNone -> (EventArgs.event_data a σ2).1 = (EventArgs.event_data a σ1).1).
Proof.
  rewrite EventArgs_new_heap. eexists _, _, _. split; [reflexivity|].
  unfold EventArgs.event_data_setter.
  rewrite (setattr_ok _ _ _ _ _ (lookup_insert_eq _ _ _)).
  split; [reflexivity|]. split.
  - apply event_data_set. cbn. rewrite lookup_insert_eq. cbn.
    by rewrite lookup_insert_eq.
  - intros ->. rewrite !event_data_fst. cbn. rewrite !lookup_insert_eq. cbn.
    by rewrite lookup_insert_eq.
Qed.

(** X13.  The three properties do not interfere: a write through
    [source], [event_name] or [event_data] of [a], whether it succeeds
    or raises, leaves the other two properties of every object reading
    as before. *)
Theorem X13_properties_are_independent a o v σ :
  let σs := (EventArgs.source_setter a v σ).2 in
  let σn := (EventArgs.event_name_setter a v σ).2 in
  let σd := (EventArgs.event_data_setter a v σ).2 in
  (EventArgs.event_name o σs).1 = (EventArgs.event_name o σ).1
  /\ (EventArgs.event_data o σs).1 = (EventArgs.event_data o σ).1
  /\ (EventArgs.source o σn).1 = (EventArgs.source o σ).1
  /\ (EventArgs.event_data o σn).1 = (EventArgs.event_data o σ).1
  /\ (EventArgs.source o σd).1 = (EventArgs.source o σ).1
  /\ (EventArgs.event_name o σd).1 = (EventArgs.event_name o σ).1.
Proof.
  cbn zeta.
  unfold EventArgs.source_setter, EventArgs.event_name_setter,
    EventArgs.event_data_setter, EventArgs.source, EventArgs.event_name.
  rewrite !event_data_fst, !getattr_fst.
  by rewrite !setattr_keeps.
Qed.

(** X14.  After [e = EventArgs(src)] and [e.event_name = s], [repr(e)]
    is [<EventArgs: s>], whatever string [s] is; for a new object it is
    [<EventArgs: >]. *)
Theorem X14_repr_shows_class_and_name src (s : pystr) σ :
  exists a σ1 σ2,
    EventArgs.new src σ = (Ok a, σ1)
    /\ EventArgsRepr.__repr__ isprintable object_str object_repr a σ1
       = (Ok (lit "<EventArgs: >"), σ1)
    /\ EventArgs.event_name_setter a (VStr s) σ1 = (Ok tt, σ2)
    /\ EventArgsRepr.__repr__ isprintable object_str object_repr a σ2
       = (Ok (lit "<EventArgs: " ++ s ++ lit ">"), σ2).
Proof.
  rewrite EventArgs_new_heap. eexists _, _, _. split; [reflexivity|].
  unfold EventArgs.event_name_setter.
  rewrite (setattr_ok _ _ _ _ _ (lookup_insert_eq _ _ _)).
  unfold EventArgsRepr.__repr__, EventArgsRepr.class_name, bind,
    EventArgs.event_name, getattr.
  cbn [lookup_attr]. rewrite !lookup_insert_eq. cbn [obj_cls obj_dict].
  rewrite !lookup_insert_eq. by repeat split.
Qed.

End EventArgsMore.

(** ** The texts of the exceptions of [ex.py] *)

Lemma plain_char_spec c :
  Ex.plain_char c = true ->
  (32 <= c < 127 /\ c <> 92 /\ c <> 34 /\ c <> 39)%N.
Proof.
  unfold Ex.plain_char.
  rewrite !andb_true_iff, !negb_true_iff, N.leb_le, N.ltb_lt, !N.eqb_neq. tauto.
Qed.

Lemma plain_app (s p : pystr) : Ex.plain (s ++ p) = Ex.plain s && Ex.plain p.
Proof. apply forallb_app. Qed.

Section ExceptionTexts.

Variable isprintable : N -> bool.
Variable object_str : loc -> M pystr.
Variable object_repr : loc -> M pystr.

Implicit Types (σ : heap) (s p n pre post : pystr) (args : list value).

(** [repr] copies printable ASCII other than the backslash and the
    quote in use. *)
Lemma escape_copies q c :
  (32 <= c < 127)%N -> c <> 92%N -> c <> q ->
  Builtins.escape isprintable q c = [c].
Proof.
  intros Hr H92 Hq. unfold Builtins.escape.
  destruct (N.eqb_spec c q); [done|]. destruct (N.eqb_spec c 92); [done|].
  cbn [orb].
  destruct (N.eqb_spec c 9); [lia|]. destruct (N.eqb_spec c 10); [lia|].
  destruct (N.eqb_spec c 13); [lia|].
  destruct (N.ltb_spec c 32); [lia|]. destruct (N.eqb_spec c 127); [lia|].
  cbn [orb]. destruct (N.ltb_spec c 127); [done|lia].
Qed.

Lemma plain_facts s :
  Ex.plain s = true ->
  existsb (N.eqb 39) s = false /\ existsb (N.eqb 34) s = false
  /\ concat (map (Builtins.escape isprintable 34) s) = s
  /\ concat (map (Builtins.escape isprintable 39) s) = s.
Proof.
  induction s as [|c s IH]; [done|].
  cbn [existsb map concat Ex.plain forallb]. intros H.
  apply andb_true_iff in H as [Hc Hs]. apply plain_char_spec in Hc.
  destruct (IH Hs) as (H1 & H2 & H3 & H4).
  destruct (N.eqb_spec 39 c); [lia|]. destruct (N.eqb_spec 34 c); [lia|].
  rewrite !escape_copies by lia. cbn [orb app]. by rewrite H1, H2, H3, H4.
Qed.

(** The [repr] of plain text is the text between single quotes. *)
Lemma repr_str_plain s :
  Ex.plain s = true ->
  Builtins.repr_str isprintable s = [39%N] ++ s ++ [39%N].
Proof.
  intros Hs. destruct (plain_facts s Hs) as (H1 & _ & _ & H4).
  unfold Builtins.repr_str, Builtins.quote_of. rewrite H1. cbn zeta.
  by rewrite H4.
Qed.

(** The [repr] of plain text with a part in single quotes is the text
    between double quotes. *)
Lemma repr_str_quoted pre s post :
  Ex.plain pre = true -> Ex.plain s = true -> Ex.plain post = true ->
  Builtins.repr_str isprintable (pre ++ [39%N] ++ s ++ [39%N] ++ post)
  = [34%N] ++ (pre ++ [39%N] ++ s ++ [39%N] ++ post) ++ [34%N].
Proof.
  intros Hp Hs Hq.
  destruct (plain_facts _ Hp) as (P1 & P2 & P3 & _).
  destruct (plain_facts _ Hs) as (S1 & S2 & S3 & _).
  destruct (plain_facts _ Hq) as (Q1 & Q2 & Q3 & _).
  unfold Builtins.repr_str, Builtins.quote_of.
  rewrite !existsb_app. cbn [existsb]. rewrite P2, S2, Q2, P1.
  cbn [orb N.eqb Pos.eqb]. cbn zeta.
  rewrite !map_app, !concat_app. cbn [map concat].
  rewrite P3, S3, Q3.
  change (Builtins.escape isprintable 34 39) with [39%N].
  by rewrite !app_nil_r.
Qed.

(** X15.  [MissingInterfaceError(interface)] never fails for want of
    [__pyunointerface__]: without that attribute the message is
    [Missing Uno Interface Error] and [str()] gives it in single quotes;
    with the attribute a string [n], the message is
    [Missing interface n]; an explicit message is kept as it is. *)
Theorem X15_MissingInterfaceError_message (interface : value) args σ :
  (lookup_attr σ interface "__pyunointerface__" = None ->
   Ex.MissingInterfaceError__init__ isprintable object_str object_repr
     interface VNone args σ
   = (Ok (Exn "MissingInterfaceError"
            (interface :: VStr (lit "Missing Uno Interface Error") :: args)), σ)
   /\ Ex.MissingInterfaceError__str__ isprintable object_repr
        (Exn "MissingInterfaceError"
           (interface :: VStr (lit "Missing Uno Interface Error") :: args)) σ
      = (Ok (lit "'Missing Uno Interface Error'"), σ))
  /\ (forall n, lookup_attr σ interface "__pyunointerface__" = Some (VStr n) ->
      Ex.MissingInterfaceError__init__ isprintable object_str object_repr
        interface VNone args σ
      = (Ok (Exn "MissingInterfaceError"
               (interface :: VStr (lit "Missing interface " ++ n) :: args)), σ))
  /\ (forall m, m <> VNone ->
      Ex.MissingInterfaceError__init__ isprintable object_str object_repr
        interface m args σ
      = (Ok (Exn "MissingInterfaceError" (interface :: m :: args)), σ)).
Proof.
  split; [|split].
  - intros H. split; [|reflexivity].
    unfold Ex.MissingInterfaceError__init__, bind, try_except.
    by rewrite (getattr_missing _ _ _ H).
  - intros n H.
    unfold Ex.MissingInterfaceError__init__, bind, try_except.
    by rewrite (getattr_lookup _ _ _ _ H).
  - intros m Hm. by destruct m.
Qed.

(** X16.  For a property name [p] of plain text (printable ASCII
    without quotes and backslash), [str(PropertyError(p))] is
    ['Property Error for: p'] and [str(PropertyNotFoundError(p))] is
    ['Property not found for: p'], both in single quotes; the two
    exceptions carry the same arguments. *)
Theorem X16_PropertyError_texts p args σ :
  Ex.plain p = true ->
  exists e1 e2,
    Ex.PropertyError__init__ (VStr p) args σ = (Ok e1, σ)
    /\ Ex.PropertyNotFoundError__init__ (VStr p) args σ = (Ok e2, σ)
    /\ exn_args e1 = exn_args e2
    /\ Ex.PropertyError__str__ isprintable object_str object_repr e1 σ
       = (Ok (lit "'Property Error for: " ++ p ++ lit "'"), σ)
    /\ Ex.PropertyNotFoundError__str__ isprintable object_str object_repr e2 σ
       = (Ok (lit "'Property not found for: " ++ p ++ lit "'"), σ).
Proof.
  intros Hp. eexists _, _. split; [reflexivity|]. split; [reflexivity|].
  split; [reflexivity|].
  unfold Ex.PropertyError__str__, Ex.PropertyNotFoundError__str__, bind, ret.
  cbn [Ex.arg exn_args lookup list_lookup Builtins.format Builtins.str ret].
  rewrite !repr_str_plain by (rewrite plain_app, Hp; reflexivity).
  split; by rewrite <- !app_assoc.
Qed.

(** X17.  For a file name or a service name [s] of plain text,
    [str(UnOpenableError(s))] is ["Un-openable file: 's'"] and
    [str(NotSupportedServiceError(s))] is ["Service not supported: 's'"]:
    the single quotes of the message make [repr] use double quotes. *)
Theorem X17_quoted_name_texts s args σ :
  Ex.plain s = true ->
  exists e1 e2,
    Ex.UnOpenableError__init__ (VStr s) args σ = (Ok e1, σ)
    /\ Ex.NotSupportedServiceError__init__ (VStr s) args σ = (Ok e2, σ)
    /\ Ex.UnOpenableError__str__ isprintable object_str object_repr e1 σ
       = (Ok ([34%N] ++ lit "Un-openable file: '" ++ s ++ lit "'" ++ [34%N]), σ)
    /\ Ex.NotSupportedServiceError__str__ isprintable object_str object_repr e2 σ
       = (Ok ([34%N] ++ lit "Service not supported: '" ++ s ++ lit "'" ++ [34%N]),
          σ).
Proof.
  intros Hs. eexists _, _. split; [reflexivity|]. split; [reflexivity|].
  unfold Ex.UnOpenableError__str__, Ex.NotSupportedServiceError__str__, bind, ret.
  cbn [Ex.arg exn_args lookup list_lookup Builtins.format Builtins.str ret].
  change (lit "Un-openable file: '" ++ s ++ lit "'")
    with (lit "Un-openable file: " ++ [39%N] ++ s ++ [39%N] ++ []).
  change (lit "Service not supported: '" ++ s ++ lit "'")
    with (lit "Service not supported: " ++ [39%N] ++ s ++ [39%N] ++ []).
  rewrite !repr_str_quoted by done.
  split; by rewrite <- !app_assoc.
Qed.

(** X18.  For an args object whose [event_name] is a string [n] of
    plain text, [str(CancelEventError(ea))] is
    ["Event 'n' is canceled!"], between double quotes. *)
Theorem X18_CancelEventError_text (ea : value) n args σ :
  EventArgs.event_name ea σ = (Ok (VStr n), σ) ->
  Ex.plain n = true ->
  exists e,
    CancelEventError.__init__ isprintable object_str object_repr ea VNone args σ
    = (Ok e, σ)
    /\ CancelEventError.__str__ isprintable object_repr e σ
       = (Ok ([34%N] ++ lit "Event '" ++ n ++ lit "' is canceled!" ++ [34%N]), σ).
Proof.
  intros Hn Hp. eexists. split.
  { by apply (default_message _ _ _ _ (VStr n) n). }
  unfold CancelEventError.__str__.
  cbn [exn_args lookup list_lookup Builtins.repr ret].
  change (lit "Event '" ++ n ++ lit "' is canceled!")
    with (lit "Event " ++ [39%N] ++ n ++ [39%N] ++ lit " is canceled!").
  rewrite repr_str_quoted by done. unfold ret. by rewrite <- !app_assoc.
Qed.

(** X19.  [str()] of a [CreateInstanceError] built without message for
    a service name [svc]: it names the interface by its
    [__pyunointerface__] when that is a string, and as
    [Unknown Interface] when the interface has no such attribute; the
    default message [Unable to create instance of svc] follows on a
    second line. *)
Theorem X19_CreateInstanceError_text (interface : value) (svc : pystr) args σ :
  let e := Exn "CreateInstanceError"
             (interface :: VStr svc
                :: VStr (lit "Unable to create instance of " ++ svc) :: args) in
  let text name :=
    lit "Unable to create instance for service '" ++ svc
      ++ lit "' with interface of '" ++ name ++ lit "'." ++ [10%N]
      ++ lit "Unable to create instance of " ++ svc in
  Ex.CreateInstanceError__init__ isprintable object_str object_repr
    interface (VStr svc) VNone args σ = (Ok e, σ)
  /\ (lookup_attr σ interface "__pyunointerface__" = None ->
      Ex.CreateInstanceError__str__ isprintable object_str object_repr e σ
      = (Ok (text (lit "Unknown Interface")), σ))
  /\ (forall n, lookup_attr σ interface "__pyunointerface__" = Some (VStr n) ->
      Ex.CreateInstanceError__str__ isprintable object_str object_repr e σ
      = (Ok (text n), σ)).
Proof.
  cbn zeta. split; [reflexivity|].
  unfold Ex.CreateInstanceError__str__, bind, try_except, ret.
  cbn [Ex.arg exn_args lookup list_lookup ret]. unfold ret.
  split.
  - intros H. by rewrite (getattr_missing _ _ _ H).
  - intros n H. by rewrite (getattr_lookup _ _ _ _ H).
Qed.

End ExceptionTexts.

Lemma X16_PropertyError_texts_witness :
  exists e1 e2,
    Ex.PropertyError__init__ (VStr (lit "CharWeight")) [] ∅ = (Ok e1, ∅)
    /\ Ex.PropertyNotFoundError__init__ (VStr (lit "CharWeight")) [] ∅ = (Ok e2, ∅)
    /\ exn_args e1 = exn_args e2
    /\ Ex.PropertyError__str__ Scenario.ascii_only Scenario.object_text
         Scenario.object_text e1 ∅
       = (Ok (lit "'Property Error for: " ++ lit "CharWeight" ++ lit "'"), ∅)
    /\ Ex.PropertyNotFoundError__str__ Scenario.ascii_only Scenario.object_text
         Scenario.object_text e2 ∅
       = (Ok (lit "'Property not found for: " ++ lit "CharWeight" ++ lit "'"), ∅).
Proof.
  apply (X16_PropertyError_texts Scenario.ascii_only Scenario.object_text
           Scenario.object_text (lit "CharWeight") [] ∅).
  reflexivity.
Defined.

Lemma X17_quoted_name_texts_witness :
  exists e1 e2,
    Ex.UnOpenableError__init__ (VStr (lit "report.odt")) [] ∅ = (Ok e1, ∅)
    /\ Ex.NotSupportedServiceError__init__ (VStr (lit "report.odt")) [] ∅
       = (Ok e2, ∅)
    /\ Ex.UnOpenableError__str__ Scenario.ascii_only Scenario.object_text
         Scenario.object_text e1 ∅
       = (Ok ([34%N] ++ lit "Un-openable file: '" ++ lit "report.odt" ++ lit "'"
                ++ [34%N]), ∅)
    /\ Ex.NotSupportedServiceError__str__ Scenario.ascii_only Scenario.object_text
         Scenario.object_text e2 ∅
       = (Ok ([34%N] ++ lit "Service not supported: '" ++ lit "report.odt"
                ++ lit "'" ++ [34%N]), ∅).
Proof.
  apply (X17_quoted_name_texts Scenario.ascii_only Scenario.object_text
           Scenario.object_text (lit "report.odt") [] ∅).
  reflexivity.
Defined.

Lemma X18_CancelEventError_text_witness :
  exists e,
    CancelEventError.__init__ Scenario.ascii_only Scenario.object_text
      Scenario.object_text Scenario.cargs VNone [] Scenario.heap1
    = (Ok e, Scenario.heap1)
    /\ CancelEventError.__str__ Scenario.ascii_only Scenario.object_text e
         Scenario.heap1
       = (Ok ([34%N] ++ lit "Event '" ++ lit "save" ++ lit "' is canceled!"
                ++ [34%N]), Scenario.heap1).
Proof.
  apply (X18_CancelEventError_text Scenario.ascii_only Scenario.object_text
           Scenario.object_text Scenario.cargs (lit "save") [] Scenario.heap1).
  - apply getattr_lookup. vm_compute. reflexivity.
  - reflexivity.
Defined.

(** ** [UnoEnum]: one instance for each type name *)

Section UnoEnumProperties.

Import UnoEnum.

Variable isprintable : N -> bool.
Variable object_str : loc -> M pystr.
Variable object_repr : loc -> M pystr.
Variable uno_Enum : value -> string -> option value.

Implicit Types (st : state) (t : pystr) (l : loc) (σ : heap) (name key : string).

Lemma consistent_empty : consistent (State ∅ ∅).
Proof. intros t l H. cbn in H. by rewrite lookup_empty in H. Qed.

Lemma lookup_attr_allocated σ (o : value) name (v : value) :
  lookup_attr σ o name = Some v -> exists l ob, o = VRef l /\ σ !! l = Some ob.
Proof.
  destruct o as [| | | |l]; try done. cbn.
  destruct (σ !! l) as [ob|] eqn:E; [|done]. intros _. by exists l, ob.
Qed.

Lemma dict_set_same σ l ob key (v : value) :
  σ !! l = Some ob ->
  lookup_attr (dict_set (VRef l) key v σ) (VRef l) key = Some v.
Proof.
  intros H. unfold dict_set. rewrite H. cbn. rewrite lookup_insert_eq. cbn.
  by rewrite lookup_insert_eq.
Qed.

Lemma dict_set_other σ (self : value) key (v o : value) name :
  (o <> self \/ name <> key) ->
  lookup_attr (dict_set self key v σ) o name = lookup_attr σ o name.
Proof.
  intros Hne. unfold dict_set.
  destruct self as [| | | |l]; try done.
  destruct (σ !! l) as [ob|] eqn:E; [|done].
  destruct o as [| | | |l']; try done. cbn.
  destruct (decide (l = l')) as [<-|Hl].
  - rewrite lookup_insert_eq, E. cbn.
    destruct Hne as [?|?]; [done|]. by rewrite lookup_insert_ne.
  - by rewrite lookup_insert_ne.
Qed.

(** A type name already loaded: the same object, and nothing changes. *)
Lemma new_loaded st t l :
  consistent st -> _loaded st !! t = Some l -> new t st = (VRef l, st).
Proof.
  intros Hc Hl. unfold new, __new__. rewrite Hl.
  unfold __init__, __setattr__, _initialized.
  destruct (Hc _ _ Hl) as [_ ->]. done.
Qed.

(** A type name not loaded yet: a new object, registered. *)
Lemma new_fresh st t :
  consistent st -> _loaded st !! t = None ->
  let l := fresh (dom (objects st)) in
  new t st
  = (VRef l,
     State (<[t := l]> (_loaded st))
       (<[l := Obj "UnoEnum"
                (<["_initialized" := VBool true]> {["_type_name" := VStr t]})]>
          (objects st))).
Proof.
  intros Hc Hl. cbn zeta. unfold new, __new__. rewrite Hl.
  unfold __init__, __setattr__, _initialized. cbn [objects _loaded lookup_attr].
  rewrite lookup_insert_eq. cbn [obj_dict].
  rewrite lookup_singleton_ne by done. cbn [default truthy].
  unfold dict_set. rewrite lookup_insert_eq. cbn [obj_cls obj_dict].
  by rewrite insert_insert_eq.
Qed.

Lemma new_consistent st t :
  consistent st ->
  consistent (new t st).2
  /\ exists l, (new t st).1 = VRef l /\ _loaded (new t st).2 !! t = Some l.
Proof.
  intros Hc. destruct (_loaded st !! t) as [l|] eqn:Hl.
  - rewrite (new_loaded _ _ _ Hc Hl). split; [done|]. by exists l.
  - rewrite (new_fresh _ _ Hc Hl). cbn [fst snd]. split.
    + intros t' l'. cbn [_loaded objects].
      destruct (decide (t = t')) as [<-|Ht].
      * rewrite lookup_insert_eq. intros [= <-]. cbn.
        rewrite lookup_insert_eq. cbn.
        by rewrite lookup_insert_ne, lookup_singleton_eq, lookup_insert_eq.
      * rewrite lookup_insert_ne by done. intros Hl'.
        destruct (Hc _ _ Hl') as [H1 H2].
        destruct (lookup_attr_allocated _ _ _ _ H1) as (l0 & ob & [= <-] & Hob).
        assert (l' <> fresh (dom (objects st))).
        { intros ->. by rewrite fresh_unallocated in Hob. }
        cbn. rewrite lookup_insert_ne by done. cbn in H1, H2. by rewrite Hob in *.
    + eexists. split; [done|]. cbn. by rewrite lookup_insert_eq.
Qed.

Lemma loaded_distinct st t t' l :
  consistent st -> _loaded st !! t = Some l -> _loaded st !! t' = Some l -> t = t'.
Proof.
  intros Hc H1 H2. destruct (Hc _ _ H1) as [E1 _]. destruct (Hc _ _ H2) as [E2 _].
  congruence.
Qed.

(** For a name that neither the class nor [object] defines, the read
    is the entry of the instance dictionary, or else [__getattr__]. *)
Lemma attr_member name :
  class_defines name = false ->
  (forall self st,
     lookup_attr (objects st) self name = None ->
     attr isprintable object_str object_repr uno_Enum self name st
     = Some (__getattr__ isprintable object_str object_repr uno_Enum self name st))
  /\ (forall uno_Enum' self st v,
        lookup_attr (objects st) self name = Some v ->
        attr isprintable object_str object_repr uno_Enum' self name st
        = Some (Ok v, st)).
Proof.
  unfold class_defines, attr. intros H.
  apply orb_false_iff in H as [H ->].
  apply bool_decide_eq_false in H.
  assert (H1 : String.eqb name "typeName" = false).
  { apply String.eqb_neq. intros ->. apply H. set_solver. }
  assert (H2 : String.eqb name "_initialized" = false).
  { apply String.eqb_neq. intros ->. apply H. set_solver. }
  assert (H3 : String.eqb name "_loaded" = false).
  { apply String.eqb_neq. intros ->. apply H. set_solver. }
  rewrite H1. split.
  - intros self st ->. by rewrite H2, H3.
  - by intros uno_Enum' self st v ->.
Qed.

(** X20.  [UnoEnum] is a singleton for each type name.  In a state
    where every loaded enum carries its type name and is initialized
    (the empty state is one, and [UnoEnum(t)] keeps it so), a second
    [UnoEnum(t)] returns the very same object and changes nothing,
    [typeName] of the object is [t], and [UnoEnum(t')] for another name
    returns another object. *)
Theorem X20_UnoEnum_is_a_singleton st t :
  consistent st ->
  consistent (new t st).2
  /\ new t (new t st).2 = new t st
  /\ typeName isprintable object_str object_repr uno_Enum (new t st).1 (new t st).2
     = (Ok (VStr t), (new t st).2)
  /\ (forall t', t' <> t -> (new t' (new t st).2).1 <> (new t st).1).
Proof.
  intros Hc. destruct (new_consistent st t Hc) as (Hc1 & l & He & Hl).
  destruct (new t st) as [e st1] eqn:En. cbn [fst snd] in *. subst e.
  split; [done|]. split; [by apply new_loaded|]. split.
  - unfold typeName. by destruct (Hc1 _ _ Hl) as [-> _].
  - intros t' Ht.
    destruct (new_consistent st1 t' Hc1) as (Hc2 & l' & He' & Hl').
    rewrite He'. intros [= ->]. apply Ht.
    destruct (_loaded st1 !! t') as [l0|] eqn:E0.
    + rewrite (new_loaded _ _ _ Hc1 E0) in He', Hl'. cbn in He', Hl'.
      injection He' as <-. by apply (loaded_distinct st1 t' t l0).
    + exfalso. rewrite (new_fresh _ _ Hc1 E0) in He'. cbn in He'.
      injection He' as He'.
      destruct (Hc1 _ _ Hl) as [H1 _].
      destruct (lookup_attr_allocated _ _ _ _ H1) as (l0 & ob & [= <-] & Hob).
      by rewrite <- He', fresh_unallocated in Hob.
Qed.

(** X21.  An enum returned by [UnoEnum(t)] cannot be assigned to:
    [e.key = v] is silently ignored, for every [key] and [v], its type
    name included. *)
Theorem X21_UnoEnum_ignores_assignment st t key (v : value) :
  consistent st ->
  __setattr__ (new t st).1 key v (new t st).2 = (new t st).2.
Proof.
  intros Hc. destruct (new_consistent st t Hc) as (Hc1 & l & He & Hl).
  rewrite He. unfold __setattr__, _initialized.
  by destruct (Hc1 _ _ Hl) as [_ ->].
Qed.

(** X22.  The first read of an enum member, a name that neither the
    class nor [object] defines, asks [uno.Enum] and keeps the answer in
    the instance: it returns the value, the enums stay consistent, and
    every later read of that member returns the same value and changes
    nothing, whatever [uno.Enum] would answer then.  The property
    [typeName] is never taken for a member: it reads as the type name,
    whatever [uno.Enum] knows. *)
Theorem X22_UnoEnum_caches_members st t l name (e : value) :
  consistent st ->
  _loaded st !! t = Some l ->
  class_defines name = false ->
  lookup_attr (objects st) (VRef l) name = None ->
  uno_Enum (VStr t) name = Some e ->
  (exists st',
     attr isprintable object_str object_repr uno_Enum (VRef l) name st
     = Some (Ok e, st')
     /\ consistent st'
     /\ _loaded st' = _loaded st
     /\ (forall uno_Enum',
           attr isprintable object_str object_repr uno_Enum' (VRef l) name st'
           = Some (Ok e, st')))
  /\ attr isprintable object_str object_repr uno_Enum (VRef l) "typeName" st
     = Some (Ok (VStr t), st).
Proof.
  intros Hc Hl Hd Hn He.
  destruct (Hc _ _ Hl) as [Ht Hi].
  destruct (lookup_attr_allocated _ _ _ _ Ht) as (l0 & ob & [= <-] & Hob).
  destruct (attr_member name Hd) as [Hm Hm'].
  split; [|unfold attr, typeName; cbn [String.eqb Ascii.eqb Bool.eqb];
           by rewrite Ht].
  exists (State (_loaded st) (dict_set (VRef l) name e (objects st))).
  split; [|split; [|split; [done|]]].
  - rewrite Hm by done. unfold __getattr__, _initialized.
    by rewrite Hi, Ht, He.
  - intros t' l' Hl'. cbn [_loaded objects] in *.
    destruct (Hc _ _ Hl') as [Ht' Hi'].
    rewrite !dict_set_other; [done|..]; right; intros <-; congruence.
  - intros uno_Enum'. apply Hm'. cbn [objects].
    by rewrite (dict_set_same _ _ _ _ _ Hob).
Qed.

(** X23.  Reading a name that neither the class nor [object] defines
    and that [uno.Enum] does not know raises [AttributeError] with the
    text [Enum <type name> has no attribute <name>], and leaves the
    state as it was. *)
Theorem X23_UnoEnum_unknown_member st t l name :
  consistent st ->
  _loaded st !! t = Some l ->
  class_defines name = false ->
  lookup_attr (objects st) (VRef l) name = None ->
  uno_Enum (VStr t) name = None ->
  attr isprintable object_str object_repr uno_Enum (VRef l) name st
  = Some (Raise (Exn "AttributeError"
                   [VStr (lit "Enum " ++ t ++ lit " has no attribute "
                            ++ lit name)]),
          st).
Proof.
  intros Hc Hl Hd Hn He. destruct (Hc _ _ Hl) as [Ht Hi].
  destruct (attr_member name Hd) as [Hm _].
  rewrite Hm by done. unfold __getattr__, _initialized.
  rewrite Hi, Ht, He. cbn. by destruct st.
Qed.

Lemma with_fill_mode_consistent : consistent Examples.with_fill_mode.
Proof. apply new_consistent, consistent_empty. Qed.

End UnoEnumProperties.

Lemma X11_close_office_calls_nothing_when_done_witness :
  let st' := Lo.close_office Examples.stubborn Examples.connected in
  Lo.is_office_terminated st' = true
  /\ Lo.calls (Lo.close_office Examples.stubborn st') = Lo.calls st'.
Proof.
  intros st'.
  assert (H : Lo.is_office_terminated st' = true) by reflexivity.
  split; [exact H|].
  by apply (X11_close_office_calls_nothing_when_done Examples.stubborn
              Examples.connected).
Defined.

Lemma X15_MissingInterfaceError_message_witness :
  Ex.MissingInterfaceError__init__ Scenario.ascii_only Scenario.object_text
    Scenario.object_text VNone VNone [] ∅
  = (Ok (Exn "MissingInterfaceError"
           [VNone; VStr (lit "Missing Uno Interface Error")]), ∅)
  /\ Ex.MissingInterfaceError__str__ Scenario.ascii_only Scenario.object_text
       (Exn "MissingInterfaceError"
          [VNone; VStr (lit "Missing Uno Interface Error")]) ∅
     = (Ok (lit "'Missing Uno Interface Error'"), ∅).
Proof.
  by apply (X15_MissingInterfaceError_message Scenario.ascii_only
              Scenario.object_text Scenario.object_text VNone [] ∅).
Defined.

Lemma X19_CreateInstanceError_text_witness :
  Ex.CreateInstanceError__str__ Scenario.ascii_only Scenario.object_text
    Scenario.object_text
    (Exn "CreateInstanceError"
       [VNone; VStr (lit "Desktop");
        VStr (lit "Unable to create instance of " ++ lit "Desktop")]) ∅
  = (Ok (lit "Unable to create instance for service '" ++ lit "Desktop"
           ++ lit "' with interface of '" ++ lit "Unknown Interface" ++ lit "'."
           ++ [10%N] ++ lit "Unable to create instance of " ++ lit "Desktop"), ∅).
Proof.
  destruct (X19_CreateInstanceError_text Scenario.ascii_only Scenario.object_text
              Scenario.object_text VNone (lit "Desktop") [] ∅) as (_ & H & _).
  apply H. reflexivity.
Defined.

Lemma X20_UnoEnum_is_a_singleton_witness :
  let t := lit "com.sun.star.sheet.FillMode" in
  let st := UnoEnum.State ∅ ∅ in
  UnoEnum.consistent (UnoEnum.new t st).2
  /\ UnoEnum.new t (UnoEnum.new t st).2 = UnoEnum.new t st
  /\ UnoEnum.typeName Scenario.ascii_only Scenario.object_text Scenario.object_text
       Examples.fill_mode (UnoEnum.new t st).1 (UnoEnum.new t st).2
     = (Ok (VStr t), (UnoEnum.new t st).2)
  /\ (forall t', t' <> t ->
      (UnoEnum.new t' (UnoEnum.new t st).2).1 <> (UnoEnum.new t st).1).
Proof.
  intros t st.
  apply (X20_UnoEnum_is_a_singleton Scenario.ascii_only Scenario.object_text
           Scenario.object_text Examples.fill_mode st t).
  apply consistent_empty.
Defined.

Lemma X21_UnoEnum_ignores_assignment_witness :
  let t := lit "com.sun.star.sheet.FillMode" in
  let st := UnoEnum.State ∅ ∅ in
  UnoEnum.__setattr__ (UnoEnum.new t st).1 "_type_name" (VStr (lit "other"))
    (UnoEnum.new t st).2
  = (UnoEnum.new t st).2.
Proof.
  intros t st. apply X21_UnoEnum_ignores_assignment, consistent_empty.
Defined.

Lemma X22_UnoEnum_caches_members_witness :
  (exists st',
     UnoEnum.attr Scenario.ascii_only Scenario.object_text Scenario.object_text
       Examples.fill_mode (VRef 1%positive) "LINEAR" Examples.with_fill_mode
     = Some (Ok (VStr (lit "LINEAR")), st')
     /\ UnoEnum.consistent st'
     /\ UnoEnum._loaded st' = UnoEnum._loaded Examples.with_fill_mode
     /\ (forall uno_Enum',
           UnoEnum.attr Scenario.ascii_only Scenario.object_text
             Scenario.object_text uno_Enum' (VRef 1%positive) "LINEAR" st'
           = Some (Ok (VStr (lit "LINEAR")), st')))
  /\ UnoEnum.attr Scenario.ascii_only Scenario.object_text Scenario.object_text
       Examples.fill_mode (VRef 1%positive) "typeName" Examples.with_fill_mode
     = Some (Ok (VStr (lit "com.sun.star.sheet.FillMode")),
             Examples.with_fill_mode).
Proof.
  apply (X22_UnoEnum_caches_members Scenario.ascii_only Scenario.object_text
           Scenario.object_text Examples.fill_mode Examples.with_fill_mode
           (lit "com.sun.star.sheet.FillMode") 1%positive "LINEAR"
           (VStr (lit "LINEAR"))).
  - apply with_fill_mode_consistent.
  - vm_compute. reflexivity.
  - vm_compute. reflexivity.
  - vm_compute. reflexivity.
  - reflexivity.
Defined.

Lemma X23_UnoEnum_unknown_member_witness :
  UnoEnum.attr Scenario.ascii_only Scenario.object_text Scenario.object_text
    Examples.fill_mode (VRef 1%positive) "CUBIC" Examples.with_fill_mode
  = Some (Raise (Exn "AttributeError"
                   [VStr (lit "Enum " ++ lit "com.sun.star.sheet.FillMode"
                            ++ lit " has no attribute " ++ lit "CUBIC")]),
          Examples.with_fill_mode).
Proof.
  apply (X23_UnoEnum_unknown_member Scenario.ascii_only Scenario.object_text
           Scenario.object_text Examples.fill_mode Examples.with_fill_mode
           (lit "com.sun.star.sheet.FillMode") 1%positive "CUBIC").
  - apply with_fill_mode_consistent.
  - vm_compute. reflexivity.
  - vm_compute. reflexivity.
  - vm_compute. reflexivity.
  - reflexivity.
Defined.
